(** * Neural optimal-transport solvers: time sampler, flow-matching trainer,
      matching dispatch and barycenter convergence loop.

    A shallow embedding of the Python sources

      - [src/ott/neural/flows/samplers.py]      ([sample_uniformly]),
      - [src/ott/neural/solvers/otfm.py]        ([OTFlowMatching]),
      - [src/ott/neural/solvers/flow_matching.py] ([FlowMatching]),
      - [tests/neural/genot_test.py]            ([data_match_fn]),

    together with a model of the barycenter convergence loop.

    Conventions.  A floating-point scalar is modelled by an exact rational
    ([Q]); a NaN is [None].  Arrays, PRNG keys, network parameters and the
    numerical kernels of the JAX ecosystem (random bits, Sinkhorn, automatic
    differentiation, ODE integration) are parameters of the development.
    Python exceptions are values of [exn]; a statement that raises keeps the
    mutations performed before the raise. *)

From stdpp Require Import base option list gmap strings.
From Stdlib Require Import ZArith QArith Qround Qabs Lia Lqa.

Local Open Scope Q_scope.

(** * Part I: the embedding *)

(** ** The time sampler *)

Module Samplers.

(** [jnp.remainder]: the result has the sign of the divisor, a zero divisor
    gives NaN. *)
Definition remainder (x m : Q) : option Q :=
  if Qeq_bool m 0 then None
  else Some (x - m * inject_Z (Qfloor (x / m))).

(** [jnp.arange(n)] as floats. *)
Definition arange (n : nat) : list Q :=
  (fun i : nat => inject_Z (Z.of_nat i)) <$> seq 0 n.

(** A sample lies in the half-open interval [[low, high)]. *)
Definition in_range (low high : Q) (s : option Q) : Prop :=
  match s with
  | Some t => low <= t /\ t < high
  | None => False
  end.

(** [a] and [b] differ by an integer multiple of [m]. *)
Definition congruent_mod (m a b : Q) : Prop :=
  exists k : Z, a - b == inject_Z k * m.

(** Consecutive entries of [samples] differ by [1 / n] modulo [m]. *)
Definition stratified_gaps (m : Q) (n : nat) (samples : list (option Q)) : Prop :=
  forall (i : nat) (s s' : option Q),
    samples !! i = Some s -> samples !! S i = Some s' ->
    exists a b : Q, s = Some a /\ s' = Some b /\
      congruent_mod m (b - a) (1 / inject_Z (Z.of_nat n)).

Section Sampler.

(** PRNG keys. *)
Variable Key : Type.

(** The unit-interval draws of [jax.random.uniform]: entry [i] of the
    array of [n] entries generated from [rng]. *)
Variable unit_uniform : Key -> nat -> nat -> Q.
Hypothesis unit_uniform_range :
  forall rng n i, 0 <= unit_uniform rng n i /\ unit_uniform rng n i < 1.

(** [jax.random.uniform(rng, (n, 1), minval, maxval)]. *)
Definition uniform (rng : Key) (n : nat) (minval maxval : Q) : list Q :=
  (fun i => minval + (maxval - minval) * unit_uniform rng n i) <$> seq 0 n.

(** [sample_uniformly(rng, num_samples, low, high, offset)].  In the offset
    branch the [(1, 1)] draw is broadcast against the column
    [arange(num_samples) / num_samples]. *)
Definition sample_uniformly (rng : Key) (num_samples : nat)
    (low high : Q) (offset : option Q) : list (option Q) :=
  match offset with
  | None => Some <$> uniform rng num_samples low high
  | Some off =>
      let t0 := default 0 (head (uniform rng 1 low high)) in
      (fun k => remainder (t0 + k / inject_Z (Z.of_nat num_samples))
                          ((high - low) - off))
        <$> arange num_samples
  end.

End Sampler.

Arguments uniform {Key} unit_uniform rng n minval maxval.
Arguments sample_uniformly {Key} unit_uniform rng num_samples low high offset.

End Samplers.

(** ** Python control effects *)

Module Py.

(** The exceptions the modelled code can raise. *)
Inductive exn : Type :=
| StopIteration
| ZeroDivisionError
| UnboundLocalError (name : string)
| NotImplementedError (msg : string)
| ValueError (msg : string)
| IndexError.

(** A statement run in a store [W]: it ends with an exception or a value,
    and the store keeps every mutation made up to that point. *)
Definition M (W A : Type) : Type := W -> (exn + A) * W.

Definition ret {W A} (a : A) : M W A := fun w => (inr a, w).

Definition bind {W A B} (m : M W A) (k : A -> M W B) : M W B :=
  fun w => match m w with
           | (inr a, w') => k a w'
           | (inl e, w') => (inl e, w')
           end.

Definition raise {W A} (e : exn) : M W A := fun w => (inl e, w).
Definition get {W} : M W W := fun w => (inr w, w).
Definition modify {W} (f : W -> W) : M W unit := fun w => (inr tt, f w).

(** [for x in xs: body(x)]. *)
Fixpoint for_each {W X} (xs : list X) (body : X -> M W unit) : M W unit :=
  match xs with
  | [] => ret tt
  | x :: rest => bind (body x) (fun _ => for_each rest body)
  end.

(** [range(n)] for a Python int [n]: empty when [n <= 0]. *)
Definition range (n : Z) : list Z := Z.of_nat <$> seq 0 (Z.to_nat n).

(** Apply a fallible function to every element, stopping at the first
    exception. *)
Fixpoint map_result {A B} (f : A -> exn + B) (l : list A) : exn + list B :=
  match l with
  | [] => inr []
  | a :: rest =>
      match f a with
      | inl e => inl e
      | inr b => match map_result f rest with
                 | inl e => inl e
                 | inr bs => inr (b :: bs)
                 end
      end
  end.

(** [jax.vmap(f)(data, condition)] along the leading axis; a [None]
    condition is passed unchanged to every call. *)
Definition vmap {X C Y} (f : X -> option C -> exn + Y)
    (data : list X) (condition : option (list C)) : exn + list Y :=
  match condition with
  | None => map_result (fun x => f x None) data
  | Some cs =>
      if decide (length cs = length data)
      then map_result (fun xc : X * C => f xc.1 (Some xc.2)) (zip data cs)
      else inl (ValueError "vmap got inconsistent sizes for array axes")
  end.

End Py.

Declare Scope py_scope.
Delimit Scope py_scope with py.
Notation "x <- m ;; k" := (Py.bind m (fun x => k))
  (at level 20, m at level 99, k at level 200, only parsing) : py_scope.
Notation "m ;;; k" := (Py.bind m (fun _ => k))
  (at level 100, k at level 200, right associativity, only parsing) : py_scope.

(** ** The optimal-transport flow-matching trainer ([otfm.py]) *)

Module OTFM.

Import Py.
Local Open Scope py_scope.
Local Open Scope Z_scope.

(** The data types of the numerical stack the trainer is generic in. *)
Class Carriers : Type := {
  Key : Type;                (* [random.PRNGKeyArray] *)
  Arr : Type;                (* [jnp.ndarray] *)
  Matrix : Type;             (* a coupling matrix *)
  Params : Type;             (* network parameters *)
  Grads : Type;              (* gradients of the loss *)
  TrainState : Type;         (* [train_state.TrainState] of the vector field *)
  RescState : Type;          (* state of a rescaling sub-model *)
  Solver : Type;             (* [ot_solver] *)
  Mlp : Type;                (* [mlp_eta], [mlp_xi] *)
  Callback : Type;           (* [callback_fn] *)
  CheckpointManager : Type;  (* [checkpoint_manager] *)
}.

(** The dictionary [batch] with its keys "source", "target", "condition". *)
Record Batch `{Carriers} : Type := {
  source : Arr;
  target : Arr;
  condition : option Arr;
}.

(** The deterministic collaborators: key splitting, the flow, automatic
    differentiation, the optimizer update, Sinkhorn matching and the
    rescaling update of [UnbalancednessMixin]. *)
Class Numerics `{Carriers} : Type := {
  split : Key -> nat -> list Key;
  len : Arr -> nat;
  params : TrainState -> Params;
  apply_gradients : TrainState -> Grads -> TrainState;
  value_and_grad : (Params -> Arr) -> Params -> Arr * Grads;
  compute_xt : Arr -> Arr -> Arr -> Arr -> Arr;
  compute_ut : Arr -> Arr -> Arr -> Arr;
  mean_squared_error : Arr -> Arr -> Arr;
  _get_sinkhorn_match_fn : Solver -> Arr -> Arr -> Matrix;
  sum_axis : Matrix -> Z -> Arr;
  unbalancedness_step_fn :
    option RescState * option RescState -> Batch -> Arr -> Arr ->
    option RescState * option RescState;
}.

(** The stochastic collaborators; each takes its PRNG key explicitly. *)
Class Sampling `{Carriers} : Type := {
  time_sampler : Key -> nat -> Arr;
  random_normal : Key -> nat * nat -> Arr;
  _resample_data :
    Key -> Matrix -> Arr * option Arr -> Arr -> (Arr * option Arr) * Arr;
  vmap_apply_fn :
    TrainState -> Arr -> Arr -> option Arr -> list Key -> Params -> Arr;
}.

Section Trainer.

Context `{C : Carriers} {N : Numerics} {R : Sampling}.

(** The attributes of an [OTFlowMatching] instance that the modelled
    methods read or write. *)
Record OTFlowMatching : Type := {
  iterations : Z;
  valid_freq : Z;
  ot_solver : option Solver;
  mlp_eta : option Mlp;
  mlp_xi : option Mlp;
  callback_fn : option Callback;
  checkpoint_manager : option CheckpointManager;
  input_dim : nat;
  rng : Key;
  state_neural_vector_field : TrainState;
  state_eta : option RescState;
  state_xi : option RescState;
  state_mlp : option RescState;
}.

(** What a checkpoint stores under a logical name. *)
Inductive SavedState : Type :=
| SavedVectorField (s : TrainState)
| SavedRescaling (s : RescState).

(** The stochastic operations that consume a key. *)
Inductive StochasticOp : Type := OpTime | OpNoise | OpModel | OpResample.

(** Observable actions of a run, in the order they happen. *)
Inductive Event : Type :=
| NextTrain                       (* [next(train_loader)] returned *)
| NextValid                       (* [next(valid_loader)] returned *)
| Matched                         (* [self.match_fn] was run *)
| KeyUsed (op : StochasticOp) (k : Key)
| GradientApplied                 (* [apply_gradients] *)
| RescalingStep                   (* [unbalancedness_step_fn] *)
| CallbackInvoked                 (* [self.callback_fn] *)
| CheckpointSaved (iter : Z) (states : gmap string SavedState).

(** The store: the trainer object, the iterator objects (by identity, so
    that the same loader may be passed twice) and the actions so far. *)
Record World : Type := {
  self : OTFlowMatching;
  iterators : gmap nat (list (Arr * Arr * option Arr));
  trace : list Event;
}.

Definition log (e : Event) : M World unit :=
  modify (fun w => {| self := self w; iterators := iterators w;
                      trace := trace w ++ [e] |}).

Definition update_self (f : OTFlowMatching -> OTFlowMatching) : M World unit :=
  modify (fun w => {| self := f (self w); iterators := iterators w;
                      trace := trace w |}).

Definition set_rng (k : Key) (o : OTFlowMatching) : OTFlowMatching :=
  {| iterations := iterations o; valid_freq := valid_freq o;
     ot_solver := ot_solver o; mlp_eta := mlp_eta o; mlp_xi := mlp_xi o;
     callback_fn := callback_fn o;
     checkpoint_manager := checkpoint_manager o; input_dim := input_dim o;
     rng := k;
     state_neural_vector_field := state_neural_vector_field o;
     state_eta := state_eta o; state_xi := state_xi o;
     state_mlp := state_mlp o |}.

Definition set_state_neural_vector_field (s : TrainState)
    (o : OTFlowMatching) : OTFlowMatching :=
  {| iterations := iterations o; valid_freq := valid_freq o;
     ot_solver := ot_solver o; mlp_eta := mlp_eta o; mlp_xi := mlp_xi o;
     callback_fn := callback_fn o;
     checkpoint_manager := checkpoint_manager o; input_dim := input_dim o;
     rng := rng o;
     state_neural_vector_field := s;
     state_eta := state_eta o; state_xi := state_xi o;
     state_mlp := state_mlp o |}.

Definition set_rescaling (s : option RescState * option RescState)
    (o : OTFlowMatching) : OTFlowMatching :=
  {| iterations := iterations o; valid_freq := valid_freq o;
     ot_solver := ot_solver o; mlp_eta := mlp_eta o; mlp_xi := mlp_xi o;
     callback_fn := callback_fn o;
     checkpoint_manager := checkpoint_manager o; input_dim := input_dim o;
     rng := rng o;
     state_neural_vector_field := state_neural_vector_field o;
     state_eta := s.1; state_xi := s.2;
     state_mlp := state_mlp o |}.

(** [next(loader)]: [StopIteration] when the iterator is exhausted. *)
Definition next (loader : nat) (e : Event) : M World (Arr * Arr * option Arr) :=
  fun w =>
    match iterators w !! loader with
    | Some (b :: rest) =>
        (inr b, {| self := self w;
                   iterators := <[loader := rest]> (iterators w);
                   trace := trace w ++ [e] |})
    | _ => (inl StopIteration, w)
    end.

(** [a, b, c = random.split(key, 3)]. *)
Definition unpack3 (ks : list Key) : M World (Key * Key * Key) :=
  match ks with
  | [a; b; c] => ret (a, b, c)
  | _ => raise (ValueError "not enough values to unpack")
  end.

(** [a % b] on Python ints. *)
Definition py_mod (a b : Z) : M World Z :=
  if b =? 0 then raise ZeroDivisionError else ret (a mod b).

(** The property [learn_rescaling]. *)
Definition learn_rescaling (o : OTFlowMatching) : bool :=
  bool_decide (is_Some (mlp_eta o)) || bool_decide (is_Some (mlp_xi o)).

(** [sample_noise]. *)
Definition sample_noise (o : OTFlowMatching) (key : Key) (batch_size : nat) : Arr :=
  random_normal key (batch_size, input_dim o).

(** The inner [loss_fn] of [_get_step_fn]. *)
Definition loss_fn (st : TrainState) (p : Params) (t noise : Arr)
    (batch : Batch) (keys_model : list Key) : Arr :=
  let x_t := compute_xt noise t (source batch) (target batch) in
  let v_t := vmap_apply_fn st t x_t (condition batch) keys_model p in
  let u_t := compute_ut t (source batch) (target batch) in
  mean_squared_error v_t u_t.

(** [step_fn] as returned by [_get_step_fn]. *)
Definition step_fn (key : Key) (st : TrainState) (batch : Batch)
    : M World (TrainState * Arr) :=
  let batch_size := len (source batch) in
  ks <- unpack3 (split key 3);;
  let '(key_noise, key_t, key_model) := ks in
  let keys_model := split key_model batch_size in
  w <- get;;
  log (KeyUsed OpTime key_t);;;
  let t := time_sampler key_t batch_size in
  log (KeyUsed OpNoise key_noise);;;
  let noise := sample_noise (self w) key_noise batch_size in
  for_each keys_model (fun k => log (KeyUsed OpModel k));;;
  let '(loss, grads) :=
    value_and_grad (fun p => loss_fn st p t noise batch keys_model)
                   (params st) in
  log GradientApplied;;;
  ret (apply_gradients st grads, loss).

(** [_valid_step]: draws a validation batch; the rest is left as a TODO
    in the source. *)
Definition _valid_step (valid_loader : nat) (iter : Z) : M World unit :=
  _ <- next valid_loader NextValid;;
  ret tt.

(** The dictionary [states_to_save]. *)
Definition states_to_save (o : OTFlowMatching) : gmap string SavedState :=
  let d0 : gmap string SavedState :=
    {[ "state_neural_vector_field"%string :=
         SavedVectorField (state_neural_vector_field o) ]} in
  let d1 := match state_mlp o with
            | Some s => <[ "state_eta"%string := SavedRescaling s ]> d0
            | None => d0
            end in
  match state_xi o with
  | Some s => <[ "state_xi"%string := SavedRescaling s ]> d1
  | None => d1
  end.

(** The body of the [for iter in range(self.iterations)] loop of
    [__call__].  The local [tmat] is bound only in the [ot_solver] branch. *)
Definition call_body (train_loader valid_loader : nat) (iter : Z) : M World unit :=
  w <- get;;
  ks <- unpack3 (split (rng (self w)) 3);;
  let '(rng_resample, rng_step_fn, rng') := ks in
  update_self (set_rng rng');;;
  raw <- next train_loader NextTrain;;
  let batch := {| source := raw.1.1; target := raw.1.2; condition := raw.2 |} in
  matched <-
    match ot_solver (self w) with
    | Some solver =>
        let tmat := _get_sinkhorn_match_fn solver (source batch) (target batch) in
        log Matched;;;
        log (KeyUsed OpResample rng_resample);;;
        let '((s, c), t) :=
          _resample_data rng_resample tmat
            (source batch, condition batch) (target batch) in
        ret (Some tmat, {| source := s; target := t; condition := c |})
    | None => ret (None, batch)
    end;;
  let '(tmat, batch) := matched in
  res <- step_fn rng_step_fn (state_neural_vector_field (self w)) batch;;
  update_self (set_state_neural_vector_field res.1);;;
  (if learn_rescaling (self w) then
     match tmat with
     | Some tm =>
         w1 <- get;;
         log RescalingStep;;;
         update_self (set_rescaling
           (unbalancedness_step_fn (state_eta (self w1), state_xi (self w1))
              batch (sum_axis tm 1) (sum_axis tm 0)))
     | None => raise (UnboundLocalError "tmat")
     end
   else ret tt);;;
  r <- py_mod iter (valid_freq (self w));;
  if r =? 0 then
    _valid_step valid_loader iter;;;
    match checkpoint_manager (self w) with
    | Some _ =>
        w2 <- get;;
        log (CheckpointSaved iter (states_to_save (self w2)))
    | None => ret tt
    end
  else ret tt.

(** [__call__(train_loader, valid_loader)]. *)
Definition call (train_loader valid_loader : nat) : M World unit :=
  w <- get;;
  for_each (range (iterations (self w))) (call_body train_loader valid_loader).

(** [save], [load] and [training_logs]. *)
Definition save (path : string) : M World unit :=
  raise (NotImplementedError "").

Definition load (path : string) : M World OTFlowMatching :=
  raise (NotImplementedError "").

Definition training_logs : M World (gmap string Arr) :=
  raise (NotImplementedError "").

(** *** Vocabulary for the properties of a run *)

(** The actions appended to the trace between two stores. *)
Definition emitted (w w' : World) (evs : list Event) : Prop :=
  trace w' = trace w ++ evs.

Definition is_train_draw (e : Event) : bool :=
  match e with NextTrain => true | _ => false end.

Definition is_gradient_update (e : Event) : bool :=
  match e with GradientApplied => true | _ => false end.

Fixpoint count (f : Event -> bool) (evs : list Event) : nat :=
  match evs with
  | [] => O
  | e :: rest => ((if f e then 1 else 0) + count f rest)%nat
  end.

(** The actions of one training step: one draw from the training iterator
    and one gradient update. *)
Definition one_training_step (evs : list Event) : Prop :=
  count is_train_draw evs = 1%nat /\ count is_gradient_update evs = 1%nat.

(** Keys obtained from [root] by zero or more splits. *)
Inductive reach (root : Key) : Key -> Prop :=
| reach_root : reach root root
| reach_split (k k' : Key) (n : nat) :
    reach root k -> k' ∈ split k n -> reach root k'.

(** Keys obtained from [root] by at least one split. *)
Definition subkey (root k : Key) : Prop :=
  exists (k0 : Key) (n : nat), reach root k0 /\ k ∈ split k0 n.

(** An action is admissible for a run whose root key is [root]: every key
    it consumes was split off [root], and it is not a callback
    invocation. *)
Definition allowed (root : Key) (e : Event) : Prop :=
  match e with
  | KeyUsed _ k => subkey root k
  | CallbackInvoked => False
  | _ => True
  end.

(** Two trainer objects have the same configuration (they may differ in
    the key and in the model states). *)
Definition same_config (o o' : OTFlowMatching) : Prop :=
  iterations o = iterations o' /\ valid_freq o = valid_freq o' /\
  ot_solver o = ot_solver o' /\ mlp_eta o = mlp_eta o' /\
  mlp_xi o = mlp_xi o' /\ callback_fn o = callback_fn o' /\
  checkpoint_manager o = checkpoint_manager o' /\
  input_dim o = input_dim o'.

(** How many batches an iterator object still holds. *)
Definition available (loader : nat) (w : World) : nat :=
  length (default [] (iterators w !! loader)).

(** The loaders can serve [n] iterations: [n] training batches and up to
    [n] validation batches, from one object when the same loader is
    passed for both. *)
Definition supplies (train_loader valid_loader : nat) (n : nat) (w : World)
    : Prop :=
  if decide (train_loader = valid_loader)
  then (2 * n <= available train_loader w)%nat
  else (n <= available train_loader w)%nat /\
       (n <= available valid_loader w)%nat.

End Trainer.

Arguments OTFlowMatching {C}.
Arguments World {C}.
Arguments Event {C}.

(** Two families of stochastic collaborators give the same results on every
    key derived from [root] by splitting. *)
Definition agree_on `{C : Carriers} {N : Numerics} (root : Key)
    (R1 R2 : Sampling) : Prop :=
  (forall k n, subkey root k ->
     time_sampler (Sampling := R1) k n = time_sampler (Sampling := R2) k n) /\
  (forall k shape, subkey root k ->
     random_normal (Sampling := R1) k shape =
     random_normal (Sampling := R2) k shape) /\
  (forall k tmat src tgt, subkey root k ->
     _resample_data (Sampling := R1) k tmat src tgt =
     _resample_data (Sampling := R2) k tmat src tgt) /\
  (forall st t x_t cond ks, Forall (subkey root) ks ->
     vmap_apply_fn (Sampling := R1) st t x_t cond ks =
     vmap_apply_fn (Sampling := R2) st t x_t cond ks).

End OTFM.

(** ** Inference-time transport ([OTFlowMatching.transport]) *)

Module Transport.

Import Py.

Section Transport.

Variables Point Cond Params : Type.

(** [state_neural_vector_field.apply_fn({"params": params}, t, x, condition)]. *)
Variable apply_fn : Params -> Q -> Point -> option Cond -> Point.

(** The ODE integrator behind [diffrax.diffeqsolve] with the default
    solver and step-size controller: the state reached at [t1] when
    integrating [y' = f t y] from [y t0 = y0]. *)
Variable integrate : (Q -> Point -> Point) -> Q -> Q -> Point -> Point.

(** [diffrax.Solution]; with the default [saveat] only the state at [t1]
    is stored. *)
Record Solution : Type := { ys : list Point }.

Definition diffeqsolve (term : Q -> Point -> Point) (t0 t1 : Q) (y0 : Point)
    : Solution :=
  {| ys := [integrate term t0 t1 y0] |}.

(** The time bounds chosen by [forward]. *)
Definition time_bounds (forward : bool) : Q * Q :=
  if forward then (0, 1) else (1, 0).

(** The inner [solve_ode]. *)
Definition solve_ode (params : Params) (forward : bool)
    (input : Point) (cond : option Cond) : exn + Point :=
  let '(t0, t1) := time_bounds forward in
  match ys (diffeqsolve (fun t x => apply_fn params t x cond) t0 t1 input)
          !! 0%nat with
  | Some y => inr y
  | None => inl IndexError
  end.

(** [transport(data, condition, forward)]. *)
Definition transport (params : Params) (data : list Point)
    (condition : option (list Cond)) (forward : bool) : exn + list Point :=
  vmap (solve_ode params forward) data condition.

End Transport.

Arguments ys {Point} s.
Arguments diffeqsolve {Point} integrate term t0 t1 y0.
Arguments solve_ode {Point Cond Params} apply_fn integrate params forward input cond.
Arguments transport {Point Cond Params} apply_fn integrate params data condition forward.

End Transport.

(** ** The sibling trainer ([flow_matching.py]): its validation step *)

Module FlowMatching.

Import Py.
Local Open Scope py_scope.

Section Trainer.

Variables Batch Arr Callback : Type.

(** [self.match_fn] as [_valid_step] uses it: the matched batch and the
    two marginals of the coupling. *)
Variable match_fn : Batch -> Batch * Arr * Arr.

Record FlowMatching : Type := {
  is_balanced : bool;
  callback_fn : option Callback;
}.

Inductive Event : Type :=
| NextValid (batch : Batch)
| Matched (batch : Batch)
| RescalingStep (batch : Batch) (a b : Arr)
| CallbackInvoked (f : Callback) (batch : Batch) (a b : Arr).

(** The store: what the validation iterator still holds, and the actions
    so far. *)
Record World : Type := {
  valid_iterator : list Batch;
  trace : list Event;
}.

Definition log (e : Event) : M World unit :=
  modify (fun w => {| valid_iterator := valid_iterator w;
                      trace := trace w ++ [e] |}).

Definition next_valid : M World Batch :=
  fun w => match valid_iterator w with
           | b :: rest =>
               (inr b, {| valid_iterator := rest;
                          trace := trace w ++ [NextValid b] |})
           | [] => (inl StopIteration, w)
           end.

(** [_valid_step(valid_loader, iter)]. *)
Definition _valid_step (self : FlowMatching) (iter : Z) : M World unit :=
  batch <- next_valid;;
  log (Matched batch);;;
  let '(batch, a, b) := match_fn batch in
  (if negb (is_balanced self) then log (RescalingStep batch a b)
   else ret tt);;;
  match callback_fn self with
  | Some f => log (CallbackInvoked f batch a b)
  | None => ret tt
  end.

End Trainer.

End FlowMatching.

(** ** Matching dispatch ([data_match_fn] of [genot_test.py]) *)

Module Genot.

Import Py.

Section Match.

Variables Arr Matrix : Type.

(** [utils.match_linear(x, y)] and
    [utils.match_quadratic(xx, yy, x=None, y=None)]. *)
Variable match_linear : option Arr -> option Arr -> exn + Matrix.
Variable match_quadratic :
  option Arr -> option Arr -> option Arr -> option Arr -> exn + Matrix.

Definition data_match_fn (src_lin tgt_lin src_quad tgt_quad : option Arr)
    (typ : string) : exn + Matrix :=
  if String.eqb typ "lin" then match_linear src_lin tgt_lin
  else if String.eqb typ "quad" then
    match_quadratic src_quad tgt_quad None None
  else if String.eqb typ "fused" then
    match_quadratic src_quad tgt_quad src_lin tgt_lin
  else inl (NotImplementedError ("Unknown type: " ++ typ ++ ".")).

End Match.

Arguments data_match_fn {Arr Matrix} match_linear match_quadratic
  src_lin tgt_lin src_quad tgt_quad typ.

End Genot.

(** ** The barycenter convergence loop *)

Module Barycenter.

Section Solver.

(** The barycenter support and weights, one update of them (solve the
    couplings to every input measure, move the support) and the total
    cost of a state. *)
Variable BarState : Type.
Variable update : BarState -> BarState.
Variable total_cost : BarState -> Q.

Variable threshold : Q.
Variable max_iterations : nat.

(** Modelled from the spec: the value marking a slot of the history as
    not yet computed (the solver module is not among the sources; the test
    suite discards the entries that are not above [-1]). *)
Definition sentinel : Q := -1.

(** Modelled from the spec: the barycenter state of the solver, whose
    module is not among the sources: the current barycenter and the trailing
    history of total costs. *)
Record SolverState : Type := {
  x : BarState;
  costs : list Q;
}.

(** Modelled from the spec: the initial state, whose history has one slot
    per iteration of the budget, each holding the sentinel. *)
Definition init_state (x_init : BarState) : SolverState :=
  {| x := x_init; costs := replicate max_iterations sentinel |}.

(** Modelled from the spec: two costs differ by less than the
    threshold. *)
Definition agree (a b : Q) : bool :=
  negb (Qle_bool threshold (Qabs (a - b))).

(** Modelled from the spec: the convergence test on successive total
    costs, after slot [i] was written. *)
Definition converged (history : list Q) (i : nat) : bool :=
  match i with
  | O => false
  | S j =>
      match history !! j, history !! i with
      | Some a, Some b => agree a b
      | _, _ => false
      end
  end.

(** Modelled from the spec: the iteration loop of the continuous
    barycenter solver, whose module is not among the sources.  Each
    iteration updates the barycenter, records its total cost in the next
    slot of the history, and stops when successive total costs differ by
    less than the threshold; the loop also stops when the iteration
    budget is used up.  The second component is the number of slots of the
    history filled on return. *)
Fixpoint iterate (budget i : nat) (st : SolverState) : SolverState * nat :=
  match budget with
  | O => (st, i)
  | S budget' =>
      let x' := update (x st) in
      let st' := {| x := x'; costs := <[i := total_cost x']> (costs st) |} in
      if converged (costs st') i then (st', S i)
      else iterate budget' (S i) st'
  end.

(** Modelled from the spec: the solver entry point, returning the final
    state (with the trailing cost history) and the number of iterations
    performed. *)
Definition solve (x_init : BarState) : SolverState * nat :=
  iterate max_iterations 0 (init_state x_init).

(** [costs[costs > -1]]: the history without its sentinel entries. *)
Definition recorded (history : list Q) : list Q :=
  List.filter (fun c => negb (Qle_bool c sentinel)) history.

(** The last two entries of a list of costs agree within the threshold. *)
Definition last_two_agree (l : list Q) : Prop :=
  exists (pre : list Q) (a b : Q), l = pre ++ [a; b] /\ agree a b = true.

End Solver.

Arguments x {BarState} s.
Arguments costs {BarState} s.

End Barycenter.

(** ** More vocabulary for the runs of the trainer *)

Module OTFMRun.

Import OTFM.

Section Run.

Context `{C : Carriers} {N : Numerics}.

(** The key [self.rng] holds after
    [rng_resample, rng_step_fn, self.rng = random.split(self.rng, 3)]. *)
Definition next_rng (k : Key) : Key := default k (split k 3 !! 2%nat).

(** [iter % valid_freq == 0]. *)
Definition validates (valid_freq iter : Z) : bool :=
  (iter mod valid_freq =? 0)%Z.

(** How many of the given iterations validate. *)
Definition validating (valid_freq : Z) (iters : list Z) : nat :=
  length (List.filter (validates valid_freq) iters).

(** How many iterations of [range(n)] validate. *)
Definition validations (valid_freq : Z) (n : nat) : nat :=
  validating valid_freq (Py.range (Z.of_nat n)).

Definition is_validation (e : Event) : bool :=
  match e with NextValid => true | _ => false end.

Definition is_checkpoint (e : Event) : bool :=
  match e with CheckpointSaved _ _ => true | _ => false end.

Definition is_matched (e : Event) : bool :=
  match e with Matched => true | _ => false end.

Definition is_rescaling (e : Event) : bool :=
  match e with RescalingStep => true | _ => false end.

Definition is_resample_key (e : Event) : bool :=
  match e with KeyUsed OpResample _ => true | _ => false end.

(** The batches drawn from the loaders between two stores: [n] by the
    training steps and [v] by validation steps, from one object when the
    same loader is passed for both. *)
Definition consumed (train_loader valid_loader : nat) (n v : nat)
    (w w' : World) : Prop :=
  if decide (train_loader = valid_loader)
  then available train_loader w = (available train_loader w' + n + v)%nat
  else available train_loader w = (available train_loader w' + n)%nat /\
       available valid_loader w = (available valid_loader w' + v)%nat.

End Run.

End OTFMRun.


(** ** The data loaders of the test suite ([tests/neural/conftest.py]) *)

Module Conftest.

(** The exceptions the loaders can raise. *)
Inductive exn : Type :=
| ValueError (msg : string)
| TypeError (msg : string)
| IndexError
| KeyError (name : string).

Section Loaders.

Variables Key Row : Type.

(** [jax.random.split(key, num)]. *)
Variable split : Key -> nat -> list Key.

(** [jax.random.choice(key, a, shape=[n])] for [a > 0]: [n] indices drawn
    from [arange(a)]. *)
Variable choice : Key -> nat -> nat -> list nat.

(** [jax.random.choice(rng, a, p=p)] for [a > 0]: one index. *)
Variable choice_p : Key -> nat -> list Q -> nat.

(** [jax.random.choice] on an integer [a]: nothing is drawn for an empty
    shape, and an empty population is an error otherwise. *)
Definition random_choice (k : Key) (a n : nat) : exn + list nat :=
  if decide (n = 0%nat) then inr []
  else if decide (a = 0%nat)
       then inl (ValueError
                   "a must be greater than 0 unless no samples are taken")
       else inr (choice k a n).

(** [data[inds, :]]: out-of-bounds indices are clamped, as JAX does on
    retrieval. *)
Definition take_rows (data : list Row) (inds : list nat) : list Row :=
  omap (fun i => data !! (i `min` pred (length data))%nat) inds.

(** [a, b = jax.random.split(key)]. *)
Definition unpack2 (ks : list Key) : exn + Key * Key :=
  match ks with
  | [a; b] => inr (a, b)
  | _ => inl (ValueError "not enough values to unpack")
  end.

(** *** [DataLoader] *)

Record DataLoader : Type := {
  source_data : list Row;
  target_data : list Row;
  conditions : option (list Row);
  batch_size : nat;
  key : Key;
}.

Definition set_key (k : Key) (o : DataLoader) : DataLoader :=
  {| source_data := source_data o; target_data := target_data o;
     conditions := conditions o; batch_size := batch_size o; key := k |}.

(** [DataLoader.__next__]: the outcome and the loader afterwards.  Both
    index arrays are drawn with the same key. *)
Definition DataLoader_next (o : DataLoader)
    : (exn + list Row * list Row * option (list Row)) * DataLoader :=
  match unpack2 (split (key o) 2) with
  | inl e => (inl e, o)
  | inr (k, k') =>
      let o' := set_key k' o in
      match random_choice k (length (source_data o)) (batch_size o) with
      | inl e => (inl e, o')
      | inr inds_source =>
          match random_choice k (length (target_data o)) (batch_size o) with
          | inl e => (inl e, o')
          | inr inds_target =>
              (inr (take_rows (source_data o) inds_source,
                    take_rows (target_data o) inds_target,
                    (fun c => take_rows c inds_source) <$> conditions o),
               o')
          end
      end
  end.

(** [n] successive calls of [next] on one loader: the batches drawn, or
    the first exception, and the loader afterwards. *)
Fixpoint DataLoader_draw (n : nat) (o : DataLoader)
    : (exn + list (list Row * list Row * option (list Row))) * DataLoader :=
  match n with
  | O => (inr [], o)
  | S m =>
      match DataLoader_next o with
      | (inl e, o') => (inl e, o')
      | (inr b, o') =>
          match DataLoader_draw m o' with
          | (inl e, o'') => (inl e, o'')
          | (inr bs, o'') => (inr (b :: bs), o'')
          end
      end
  end.

(** *** [ConditionalDataLoader] *)

(** Loaders are objects: the dictionary [dataloaders] holds references into
    a store of loaders, so that a loader stored under two names is one
    object, and [next] on it is seen under both. *)
Definition Store : Type := nat -> DataLoader.

(** [__next__] of the object at [ref] has run and left it as [v]. *)
Definition store_set (h : Store) (ref : nat) (v : DataLoader) : Store :=
  fun r => if decide (r = ref) then v else h r.

(** The dictionary [dataloaders] keeps its insertion order; [conditions] is
    [list(dataloaders.keys())]. *)
Record ConditionalDataLoader : Type := {
  rng : Key;
  dataloaders : list (string * nat);
  p : list Q;
}.

Definition cond_names (o : ConditionalDataLoader) : list string :=
  fst <$> dataloaders o.

(** [dataloaders[name]]. *)
Fixpoint dict_get (d : list (string * nat)) (name : string) : option nat :=
  match d with
  | [] => None
  | (n, v) :: rest => if String.eqb n name then Some v else dict_get rest name
  end.

(** [ConditionalDataLoader.__next__]: the outcome, the conditional loader
    and the store afterwards. *)
Definition ConditionalDataLoader_next (o : ConditionalDataLoader) (h : Store)
    : (exn + list Row * list Row * option (list Row)) *
      ConditionalDataLoader * Store :=
  match unpack2 (split (rng o) 2) with
  | inl e => (inl e, o, h)
  | inr (k, k') =>
      let o' := {| rng := k; dataloaders := dataloaders o; p := p o |} in
      match cond_names o with
      | [] =>
          (inl (ValueError
                  "a must be greater than 0 unless no samples are taken"),
           o', h)
      | _ :: _ =>
          if negb (length (p o) =? length (cond_names o))%nat
          then (inl (ValueError "p must be None or match the shape of a"),
                o', h)
          else
          let idx := choice_p k' (length (cond_names o)) (p o) in
          match cond_names o !! idx with
          | None => (inl IndexError, o', h)
          | Some name =>
              match dict_get (dataloaders o) name with
              | None => (inl (KeyError name), o', h)
              | Some ref =>
                  let '(r, loader') := DataLoader_next (h ref) in
                  (r, o', store_set h ref loader')
              end
          end
      end
  end.

(** *** [GENOTDataLoader] *)

Record GENOTDataLoader : Type := {
  source_lin : option (list Row);
  source_quad : option (list Row);
  target_lin : option (list Row);
  target_quad : option (list Row);
  genot_conditions : option (list Row);
  genot_batch_size : nat;
  genot_key : Key;
}.

Definition set_genot_key (k : Key) (o : GENOTDataLoader) : GENOTDataLoader :=
  {| source_lin := source_lin o; source_quad := source_quad o;
     target_lin := target_lin o; target_quad := target_quad o;
     genot_conditions := genot_conditions o;
     genot_batch_size := genot_batch_size o; genot_key := k |}.

(** [len(x)] for an optional array. *)
Definition len_opt (x : option (list Row)) : exn + nat :=
  match x with
  | Some a => inr (length a)
  | None => inl (TypeError "object of type 'NoneType' has no len()")
  end.

(** [GENOTDataLoader.__next__]: the index arrays are sized by [source_lin]
    and [target_lin] before any of the five arrays is tested for [None]. *)
Definition GENOTDataLoader_next (o : GENOTDataLoader)
    : (exn + option (list Row) * option (list Row) * option (list Row) *
             option (list Row) * option (list Row)) * GENOTDataLoader :=
  match unpack2 (split (genot_key o) 2) with
  | inl e => (inl e, o)
  | inr (k, k') =>
      let o' := set_genot_key k' o in
      match len_opt (source_lin o) with
      | inl e => (inl e, o')
      | inr n_source =>
          match random_choice k n_source (genot_batch_size o) with
          | inl e => (inl e, o')
          | inr inds_source =>
              match len_opt (target_lin o) with
              | inl e => (inl e, o')
              | inr n_target =>
                  match random_choice k n_target (genot_batch_size o) with
                  | inl e => (inl e, o')
                  | inr inds_target =>
                      (inr ((fun a => take_rows a inds_source) <$> source_lin o,
                            (fun a => take_rows a inds_source) <$> source_quad o,
                            (fun a => take_rows a inds_target) <$> target_lin o,
                            (fun a => take_rows a inds_target) <$> target_quad o,
                            (fun a => take_rows a inds_source)
                              <$> genot_conditions o),
                       o')
                  end
              end
          end
      end
  end.

End Loaders.

Arguments source_data {Key Row} d.
Arguments target_data {Key Row} d.
Arguments conditions {Key Row} d.
Arguments batch_size {Key Row} d.
Arguments key {Key Row} d.
Arguments rng {Key} c.
Arguments dataloaders {Key} c.
Arguments p {Key} c.
Arguments source_lin {Key Row} g.
Arguments source_quad {Key Row} g.
Arguments target_lin {Key Row} g.
Arguments target_quad {Key Row} g.
Arguments genot_conditions {Key Row} g.
Arguments genot_batch_size {Key Row} g.
Arguments genot_key {Key Row} g.
Arguments take_rows {Row} data inds.
Arguments random_choice {Key} choice k a n.
Arguments DataLoader_next {Key Row} split choice o.
Arguments DataLoader_draw {Key Row} split choice n o.
Arguments ConditionalDataLoader_next {Key Row} split choice choice_p o h.
Arguments GENOTDataLoader_next {Key Row} split choice o.
Arguments cond_names {Key} o.
Arguments store_set {Key Row} h ref v.

End Conftest.


(** ** The integration of one sample by [transport] *)

Module TransportFlow.

Section Flow.

Variables Point Cond Params : Type.
Variable apply_fn : Params -> Q -> Point -> option Cond -> Point.
Variable integrate : (Q -> Point -> Point) -> Q -> Q -> Point -> Point.

(** What [solve_ode] computes for one input point: the integration of the
    field under the sample's condition between the bounds selected by
    [forward]. *)
Definition flow (params : Params) (forward : bool) (c : option Cond)
    (y0 : Point) : Point :=
  integrate (fun t y => apply_fn params t y c)
    (if forward then 0 else 1) (if forward then 1 else 0) y0.

End Flow.

Arguments flow {Point Cond Params} apply_fn integrate params forward c y0.

End TransportFlow.


(** ** A concrete instance of the collaborators

    A small, fully computable instantiation of the parameters of the
    development, on which the models run. *)

Module Reference.

Import OTFM.

(** A toy generator on integer keys: entry [i] of the unit-interval draws. *)
Definition unit_uniform (rng : Z) (n i : nat) : Q :=
  Qmake ((rng * 7919 + Z.of_nat i * 104729 + 13) mod 1000) 1000.

#[export] Instance carriers : Carriers := {|
  Key := Z;
  Arr := list Q;
  Matrix := list (list Q);
  Params := Q;
  Grads := Q;
  TrainState := Q;
  RescState := Q;
  Solver := unit;
  Mlp := unit;
  Callback := unit;
  CheckpointManager := unit;
|}.

Definition sum_of (l : list Q) : Q := foldr Qplus 0 l.

(** Key splitting: child [i] of key [k]. *)
Definition split_key (k : Z) (n : nat) : list Z :=
  (fun i : nat => (k * 1000 + Z.of_nat i + 1)%Z) <$> seq 0 n.

Definition finite_difference (f : Q -> list Q) (p : Q) : list Q * Q :=
  (f p, sum_of (f (p + 1)) - sum_of (f p)).

Definition squared_error (v u : list Q) : list Q :=
  [sum_of (zip_with (fun a b => (a - b) * (a - b)) v u)].

#[export] Instance numerics : @Numerics carriers :=
  @Build_Numerics carriers
    split_key
    (fun a : list Q => length a)
    (fun s : Q => s)
    (fun s g : Q => s - (1 # 10) * g)
    finite_difference
    (fun noise t x0 x1 : list Q => zip_with Qplus x0 x1)
    (fun t x0 x1 : list Q => zip_with Qminus x1 x0)
    squared_error
    (fun (_ : unit) (x y : list Q) => [x; y])
    (fun (m : list (list Q)) (_ : Z) => sum_of <$> m)
    (fun s _ _ _ => s).

Definition uniform_times (k : Z) (n : nat) : list Q :=
  default 0 <$> Samplers.sample_uniformly unit_uniform k n 0 1 None.

Definition noise_draws (k : Z) (shape : nat * nat) : list Q :=
  (fun i : nat => unit_uniform k shape.1 i) <$> seq 0 shape.1.

#[export] Instance sampling : @Sampling carriers :=
  @Build_Sampling carriers
    uniform_times
    noise_draws
    (fun (_ : Z) (_ : list (list Q)) src tgt => (src, tgt))
    (fun (_ : Q) (_ x : list Q) (_ : option (list Q)) (_ : list Z) (p : Q) =>
       (fun xi => p * xi) <$> x).

(** The same collaborators, except that the time sampler returns nothing
    on a key that is not positive.  No key split off the root key [0] is of
    that kind. *)
Definition uniform_times_on_subkeys (k : Z) (n : nat) : list Q :=
  if (0 <? k)%Z then uniform_times k n else [].

Definition sampling_on_subkeys : @Sampling carriers :=
  @Build_Sampling carriers
    uniform_times_on_subkeys
    noise_draws
    (fun (_ : Z) (_ : list (list Q)) src tgt => (src, tgt))
    (fun (_ : Q) (_ x : list Q) (_ : option (list Q)) (_ : list Z) (p : Q) =>
       (fun xi => p * xi) <$> x).

(** A trainer as in the test suite: three iterations, validation every
    second one, an OT solver, no rescaling. *)
Definition trainer : @OTFlowMatching carriers := {|
  iterations := 3%Z;
  valid_freq := 2%Z;
  ot_solver := Some (tt : @Solver carriers);
  mlp_eta := None;
  mlp_xi := None;
  callback_fn := Some (tt : @Callback carriers);
  checkpoint_manager := None;
  input_dim := 2%nat;
  rng := (0%Z : @Key carriers);
  state_neural_vector_field := (1 : @TrainState carriers);
  state_eta := None;
  state_xi := None;
  state_mlp := None;
|}.

(** The same trainer with a rescaling sub-model but without OT solver. *)
Definition trainer_rescaling_only : @OTFlowMatching carriers := {|
  iterations := 3%Z;
  valid_freq := 2%Z;
  ot_solver := None;
  mlp_eta := Some (tt : @Mlp carriers);
  mlp_xi := None;
  callback_fn := Some (tt : @Callback carriers);
  checkpoint_manager := None;
  input_dim := 2%nat;
  rng := (0%Z : @Key carriers);
  state_neural_vector_field := (1 : @TrainState carriers);
  state_eta := None;
  state_xi := None;
  state_mlp := None;
|}.

Definition a_batch : @Arr carriers * @Arr carriers * option (@Arr carriers) :=
  ([1; 2], [3; 4], None).

(** One loader object (identity [0]) holding six batches; the tests pass
    the same loader for training and validation. *)
Definition world (o : @OTFlowMatching carriers) : @World carriers := {|
  self := o;
  iterators := {[ 0%nat := replicate 6 a_batch ]};
  trace := [];
|}.

(** A linear field and a one-step Euler integrator for [transport]. *)
Definition linear_field (p : Q) (t y : Q) (c : option Q) : Q :=
  p * y + default 0 c.

Definition euler (f : Q -> Q -> Q) (t0 t1 y0 : Q) : Q :=
  y0 + (t1 - t0) * f t0 y0.

(** Matching utilities that return a fixed coupling. *)
Definition match_linear (x y : option (list Q)) : Py.exn + list (list Q) :=
  inr [[1]].

Definition match_quadratic (xx yy x y : option (list Q))
    : Py.exn + list (list Q) :=
  inr [[1]].

(** Total costs [1/2, 1/3, 1/4, ...] of a barycenter state counted by its
    number of updates. *)
Definition harmonic_cost (s : nat) : Q := 1 # Pos.of_succ_nat s.

End Reference.

(** ** More concrete instances *)

Module ReferenceExtra.

Import OTFM Reference.

(** A trainer of the reference instance with the given number of
    iterations, validation frequency, OT solver, rescaling sub-model and
    checkpoint manager. *)
Definition make_trainer (n vf : Z) (solver mlp ckpt : option unit)
    : @OTFlowMatching carriers := {|
  iterations := n;
  valid_freq := vf;
  ot_solver := (solver : option (@Solver carriers));
  mlp_eta := (mlp : option (@Mlp carriers));
  mlp_xi := None;
  callback_fn := None;
  checkpoint_manager := (ckpt : option (@CheckpointManager carriers));
  input_dim := 2%nat;
  rng := (0%Z : @Key carriers);
  state_neural_vector_field := (1 : @TrainState carriers);
  state_eta := None;
  state_xi := Some (3 : @RescState carriers);
  state_mlp := None;
|}.

(** Two loader objects, [0] for training and [1] for validation, and a
    third one that is not passed to the trainer. *)
Definition world3 (o : @OTFlowMatching carriers) : @World carriers := {|
  self := o;
  iterators := {[ 0%nat := replicate 4 a_batch;
                  1%nat := replicate 3 a_batch;
                  2%nat := replicate 1 a_batch ]};
  trace := [];
|}.

(** No loader holds a batch. *)
Definition exhausted_world (o : @OTFlowMatching carriers) : @World carriers := {|
  self := o;
  iterators := ∅;
  trace := [];
|}.

(** A constant field on integer points and an integrator that moves a point
    by the signed length of the time interval times the field. *)
Definition constant_field (p : Z) (t : Q) (y : Z) (c : option Z) : Z := p.

Definition integer_step (f : Q -> Z -> Z) (t0 t1 : Q) (y0 : Z) : Z :=
  (y0 + Qfloor (t1 - t0) * f t0 y0)%Z.

(** Index draws for the loaders. *)
Definition draw_indices (k : Z) (a n : nat) : list nat :=
  (fun i : nat => Z.to_nat ((k + Z.of_nat i * 7) mod Z.of_nat a)) <$> seq 0 n.

Definition draw_index (k : Z) (a : nat) (q : list Q) : nat :=
  Z.to_nat (k mod Z.of_nat a).

Definition loader : Conftest.DataLoader Z (list Q) := {|
  Conftest.source_data := [[0; 0]; [1; 1]; [2; 2]];
  Conftest.target_data := [[10; 10]; [11; 11]; [12; 12]];
  Conftest.conditions := Some [[5]; [6]; [7]];
  Conftest.batch_size := 2;
  Conftest.key := 0%Z;
|}.

Definition empty_loader : Conftest.DataLoader Z (list Q) := {|
  Conftest.source_data := [];
  Conftest.target_data := [[10; 10]];
  Conftest.conditions := None;
  Conftest.batch_size := 2;
  Conftest.key := 0%Z;
|}.

(** Two loader objects, and a conditional loader over them that knows the
    first one under two names. *)
Definition loaders : Conftest.Store Z (list Q) :=
  fun ref => if decide (ref = 0%nat) then loader else empty_loader.

Definition conditional_loader : Conftest.ConditionalDataLoader Z := {|
  Conftest.rng := 0%Z;
  Conftest.dataloaders :=
    [("0"%string, 0%nat); ("1"%string, 1%nat); ("2"%string, 0%nat)];
  Conftest.p := [1 # 3; 1 # 3; 1 # 3];
|}.

(** The loader of the quadratic fixture: no linear arrays. *)
Definition genot_quad_loader : Conftest.GENOTDataLoader Z (list Q) := {|
  Conftest.source_lin := None;
  Conftest.source_quad := Some [[0; 0]; [1; 1]];
  Conftest.target_lin := None;
  Conftest.target_quad := Some [[3]; [4]];
  Conftest.genot_conditions := None;
  Conftest.genot_batch_size := 2;
  Conftest.genot_key := 0%Z;
|}.

End ReferenceExtra.


(** * Part II: properties *)

(** ** Rational arithmetic helpers *)

Lemma Qfloor_bounds (q : Q) :
  inject_Z (Qfloor q) <= q /\ q < inject_Z (Qfloor q) + 1.
Proof.
  split; [apply Qfloor_le|].
  pose proof (Qlt_floor q) as H.
  rewrite inject_Z_plus in H. exact H.
Qed.

Lemma Qdiv_bounds_pos (a m : Q) (f : Q) :
  0 < m -> f <= a / m -> a / m < f + 1 -> 0 <= a - m * f /\ a - m * f < m.
Proof.
  intros Hm Hlo Hhi.
  assert (Hne : ~ m == 0) by (intros E; rewrite E in Hm; revert Hm; apply Qlt_irrefl).
  assert (Ha : a == m * (a / m)) by (field; exact Hne).
  split.
  - assert (m * f <= m * (a / m)) by (apply Qmult_le_l; assumption).
    rewrite <- Ha in H. lra.
  - assert (m * (a / m) < m * (f + 1)) by (apply Qmult_lt_l; assumption).
    rewrite <- Ha in H. lra.
Qed.

(** ** The time sampler *)

Module SamplersFacts.

Import Samplers.

Lemma remainder_nonzero (a m : Q) :
  ~ m == 0 -> remainder a m = Some (a - m * inject_Z (Qfloor (a / m))).
Proof.
  intros Hm. unfold remainder.
  destruct (Qeq_bool m 0) eqn:E; [|reflexivity].
  apply Qeq_bool_eq in E. contradiction.
Qed.

(** With a positive modulus the remainder lies in [[0, m)]. *)
Lemma remainder_pos_range (a m : Q) :
  0 < m -> exists r, remainder a m = Some r /\ 0 <= r /\ r < m.
Proof.
  intros Hm.
  assert (Hne : ~ m == 0) by (intros E; rewrite E in Hm; revert Hm; apply Qlt_irrefl).
  eexists. split; [apply remainder_nonzero; exact Hne|].
  destruct (Qfloor_bounds (a / m)) as [Hlo Hhi].
  apply Qdiv_bounds_pos; assumption.
Qed.

Lemma arange_length (n : nat) : length (arange n) = n.
Proof. unfold arange. rewrite length_fmap, length_seq. reflexivity. Qed.

Lemma arange_lookup (n i : nat) :
  (i < n)%nat -> arange n !! i = Some (inject_Z (Z.of_nat i)).
Proof.
  intros Hi. unfold arange. rewrite list_lookup_fmap.
  rewrite lookup_seq_lt by exact Hi. reflexivity.
Qed.

Section Facts.

Variable Key : Type.
Variable unit_uniform : Key -> nat -> nat -> Q.
Hypothesis unit_uniform_range :
  forall rng n i, 0 <= unit_uniform rng n i /\ unit_uniform rng n i < 1.

Lemma uniform_length rng n lo hi :
  length (uniform unit_uniform rng n lo hi) = n.
Proof. unfold uniform. rewrite length_fmap, length_seq. reflexivity. Qed.

(** Every draw of [uniform] lies in [[minval, maxval)]. *)
Lemma uniform_in_range rng n lo hi t :
  lo < hi -> t ∈ uniform unit_uniform rng n lo hi -> lo <= t /\ t < hi.
Proof using unit_uniform_range.
  intros Hlh Hin. unfold uniform in Hin.
  apply list_elem_of_fmap in Hin as (i & -> & _).
  destruct (unit_uniform_range rng n i) as [H0 H1].
  split; nra.
Qed.

(** The plain variant keeps every sample in [[low, high)]. *)
Lemma sample_uniformly_plain_in_range rng n lo hi s :
  lo < hi -> s ∈ sample_uniformly unit_uniform rng n lo hi None ->
  in_range lo hi s.
Proof using unit_uniform_range.
  intros Hlh Hin. simpl in Hin.
  apply list_elem_of_fmap in Hin as (t & -> & Ht).
  simpl. eapply uniform_in_range; eassumption.
Qed.

(** The offset variant keeps every sample in
    [[0, (high - low) - offset)] when that modulus is positive. *)
Lemma sample_uniformly_offset_in_modulus rng n lo hi off s :
  0 < (hi - lo) - off ->
  s ∈ sample_uniformly unit_uniform rng n lo hi (Some off) ->
  in_range 0 ((hi - lo) - off) s.
Proof.
  intros Hm Hin. unfold sample_uniformly in Hin. cbv zeta in Hin.
  apply list_elem_of_fmap in Hin as (k & -> & _).
  match goal with
  | |- in_range _ _ (remainder ?a ?m) =>
      destruct (remainder_pos_range a m Hm) as (r & -> & Hr)
  end.
  exact Hr.
Qed.

(** With [low = 0] and [0 <= offset < high] the offset variant stays
    within [[low, high)]. *)
Lemma sample_uniformly_offset_in_range_low0 rng n hi off s :
  0 <= off -> off < hi ->
  s ∈ sample_uniformly unit_uniform rng n 0 hi (Some off) ->
  in_range 0 hi s.
Proof.
  intros Hoff Hlt Hin.
  apply sample_uniformly_offset_in_modulus in Hin; [|lra].
  destruct s as [t|]; simpl in *; [|exact Hin].
  destruct Hin; split; lra.
Qed.

Lemma sample_uniformly_length rng n lo hi offset :
  length (sample_uniformly unit_uniform rng n lo hi offset) = n.
Proof.
  destruct offset; simpl.
  - rewrite length_fmap. apply arange_length.
  - rewrite length_fmap. apply uniform_length.
Qed.

End Facts.

(** C1 (evaluation at the failing configuration).  With [low = 2],
    [high = 3] and [offset = 0] (a valid configuration), whatever the key
    and the random draw, the offset variant returns [num_samples] samples and
    none of them lies in [[low, high)]: the reduction modulo
    [(high - low) - offset] sends every sample into [[0, 1)]. *)
Theorem sample_uniformly_offset_leaves_range
    (Key : Type) (unit_uniform : Key -> nat -> nat -> Q) (rng : Key) (n : nat) :
  length (sample_uniformly unit_uniform rng n 2 3 (Some 0)) = n /\
  forall s, s ∈ sample_uniformly unit_uniform rng n 2 3 (Some 0) ->
            in_range 0 1 s /\ ~ in_range 2 3 s.
Proof.
  split; [apply sample_uniformly_length|].
  intros s Hin.
  apply sample_uniformly_offset_in_modulus in Hin; [|reflexivity].
  destruct s as [t|]; simpl in *; [|contradiction].
  destruct Hin as [H0 H1]. split.
  - split; lra.
  - intros [H2 _]. lra.
Qed.



End SamplersFacts.

(** ** The flow-matching trainer *)

Module OTFMFacts.

Import Py OTFM.
Local Open Scope py_scope.

Section Facts.

Context `{C : Carriers} {N : Numerics} {R : Sampling}.

Lemma bind_run {W A B} (m : M W A) (k : A -> M W B) (w : W) :
  bind m k w = match m w with
               | (inr a, w') => k a w'
               | (inl e, w') => (inl e, w')
               end.
Proof. reflexivity. Qed.

Lemma for_each_log (f : Key -> Event) (ks : list Key) (w : World) :
  for_each ks (fun k => log (f k)) w =
  (inr tt, {| self := self w; iterators := iterators w;
              trace := trace w ++ (f <$> ks) |}).
Proof.
  revert w. induction ks as [|k ks IH]; intros w; simpl.
  - rewrite app_nil_r. destruct w; reflexivity.
  - unfold bind at 1. simpl. rewrite IH. simpl.
    rewrite <- app_assoc. reflexivity.
Qed.

(** The effect of [step_fn]: it fails only when [random.split] does not
    return three keys; otherwise it leaves the trainer and the iterators
    alone and logs its key uses and one gradient update. *)
Lemma step_fn_spec (key : Key) (st : TrainState) (batch : Batch) (w : World) :
  (exists a b c st' loss,
      split key 3 = [a; b; c] /\
      step_fn key st batch w =
      (inr (st', loss),
       {| self := self w; iterators := iterators w;
          trace := trace w ++
            [KeyUsed OpTime b; KeyUsed OpNoise a] ++
            (KeyUsed OpModel <$> split c (len (source batch))) ++
            [GradientApplied] |})) \/
  (length (split key 3) <> 3%nat /\
   exists msg, step_fn key st batch w = (inl (ValueError msg), w)).
Proof.
  unfold step_fn.
  destruct (split key 3) as [|a [|b [|c [|d l]]]] eqn:Hs;
    try (right; split; [simpl; lia | eexists; reflexivity]).
  left. exists a, b, c.
  cbn [unpack3 bind ret get log modify fst snd self iterators trace].
  rewrite bind_run, for_each_log.
  destruct (value_and_grad _ _) as [loss grads] eqn:Hvg.
  cbn [unpack3 bind ret get log modify fst snd self iterators trace].
  eexists _, _. split; [reflexivity|].
  rewrite <- !app_assoc. reflexivity.
Qed.

Local Arguments step_fn : simpl never.

Lemma count_app f (l1 l2 : list Event) :
  count f (l1 ++ l2) = (count f l1 + count f l2)%nat.
Proof. induction l1 as [|e l1 IH]; simpl; [reflexivity|]. rewrite IH. lia. Qed.

Lemma count_key_used f op (ks : list Key) :
  (forall k, f (KeyUsed op k) = false) -> count f (KeyUsed op <$> ks) = 0%nat.
Proof.
  intros Hf. induction ks as [|k ks IH]; [reflexivity|].
  rewrite fmap_cons. cbn [count]. rewrite Hf, IH. reflexivity.
Qed.

Lemma subkey_in_split root k0 k n :
  reach root k0 -> k ∈ split k0 n -> subkey root k.
Proof. intros H1 H2. exists k0, n. split; assumption. Qed.

Lemma allowed_model_keys root k0 n :
  reach root k0 ->
  Forall (allowed root) (KeyUsed OpModel <$> split k0 n).
Proof.
  intros Hr. apply Forall_fmap, Forall_forall. intros k Hk. simpl.
  eapply subkey_in_split; eassumption.
Qed.

Lemma same_config_refl o : same_config o o.
Proof. repeat split. Qed.

Lemma allowed_key_used root op k : subkey root k -> allowed root (KeyUsed op k).
Proof. intros H. exact H. Qed.

Ltac bind_step :=
  rewrite bind_run;
  cbn [get ret raise update_self log modify self iterators trace fst snd].

(* the iterator bookkeeping at the end of a path *)
Ltac loaders :=
  unfold supplies, available in *; cbn [iterators] in *;
  repeat case_decide; subst;
  repeat match goal with
  | H : context [<[?i := _]> _ !! ?i] |- _ => rewrite lookup_insert_eq in H
  | H : context [<[?i := _]> _ !! ?j] |- _ =>
      rewrite lookup_insert_ne in H by congruence
  | |- context [<[?i := _]> _ !! ?i] => rewrite lookup_insert_eq
  | |- context [<[?i := _]> _ !! ?j] => rewrite lookup_insert_ne by congruence
  | H : ?m !! ?i = _, H' : context [?m !! ?i] |- _ => rewrite H in H'
  | H : ?m !! ?i = _ |- context [?m !! ?i] => rewrite H
  | H : Some _ = Some _ |- _ => injection H as H; subst
  end;
  simpl in *; first [ lia | congruence ].

Ltac counts :=
  rewrite ?count_app; cbn [count is_train_draw is_gradient_update];
  rewrite ?count_key_used by (intros; reflexivity); lia.

Ltac events :=
  repeat first
    [ apply Forall_nil
    | apply Forall_app; split
    | apply Forall_cons; split
    | apply allowed_model_keys; assumption
    | apply allowed_key_used; assumption
    | exact I ].

Ltac leaf :=
  unfold log, modify; cbn [bind get ret self iterators trace];
  eexists _, _, _; split; [reflexivity|];
  cbn [self iterators trace];
  split; [first [ symmetry; apply app_nil_r
                | rewrite <- ?app_assoc; reflexivity ]|];
  split; [unfold same_config, set_rescaling, set_state_neural_vector_field,
            set_rng; cbn; tauto|];
  split; [cbn; first [ apply reach_root | assumption ]|];
  split; [events|];
  split; [split; counts|];
  split; [first [ discriminate | intros _; split; counts ]|];
  split;
  [ intros Hlr' Hot';
    first [ congruence
          | eexists; split; [reflexivity|]; intros Hsplit Hav;
            first [ split; [reflexivity | split; counts]
                  | exfalso;
                    repeat match goal with
                    | H : split ?k 3 = _ |- _ =>
                        let E := fresh in
                        pose proof (Hsplit k) as E; rewrite H in E;
                        simpl in E; clear H
                    | H : length (split ?k 3) <> _ |- _ =>
                        apply H, Hsplit
                    end; loaders ] ]
  | intros Hsplit Hvf' Hresc n Hsup;
    first [ split; [reflexivity | loaders]
          | exfalso;
            repeat match goal with
            | H : split ?k 3 = _ |- _ =>
                let E := fresh in
                pose proof (Hsplit k) as E; rewrite H in E;
                simpl in E; clear H
            | H : length (split ?k 3) <> _ |- _ => apply H, Hsplit
            | H : (_ =? 0)%Z = true |- _ => apply Z.eqb_eq in H
            | H : true = true -> is_Some _ |- _ =>
                destruct (H eq_refl) as [? ?]; clear H
            end; first [ congruence | loaders ] ] ].

Ltac tail w iter :=
  bind_step; unfold py_mod;
  destruct (valid_freq (self w) =? 0)%Z eqn:Hvf; cbn [raise ret]; [leaf|];
  destruct (iter `mod` valid_freq (self w) =? 0)%Z eqn:Hmod; cbn [ret];
    [|leaf];
  bind_step; unfold _valid_step; bind_step; unfold next at 1;
  cbn [self iterators trace];
  match goal with
  | |- context [(<[?i := ?x]> ?m) !! ?v] =>
      destruct ((<[i := x]> m) !! v) as [[|vraw vrest]|] eqn:Hvit
  end; cbn [ret]; [leaf | | leaf];
  destruct (checkpoint_manager (self w)) eqn:Hck; leaf.

(** One iteration of the training loop, summarised. *)
Lemma call_body_spec tl vl iter w :
  exists r w' evs,
    call_body tl vl iter w = (r, w') /\
    trace w' = trace w ++ evs /\
    same_config (self w) (self w') /\
    reach (rng (self w)) (rng (self w')) /\
    Forall (allowed (rng (self w))) evs /\
    (count is_train_draw evs <= 1 /\ count is_gradient_update evs <= 1)%nat /\
    (r = inr tt -> one_training_step evs) /\
    (learn_rescaling (self w) = true -> ot_solver (self w) = None ->
     exists e, r = inl e /\
       ((forall k, length (split k 3) = 3%nat) ->
        available tl w <> 0%nat ->
        e = UnboundLocalError "tmat" /\ one_training_step evs)) /\
    ((forall k, length (split k 3) = 3%nat) ->
     valid_freq (self w) <> 0%Z ->
     (learn_rescaling (self w) = true -> is_Some (ot_solver (self w))) ->
     forall n, supplies tl vl (S n) w ->
     r = inr tt /\ supplies tl vl n w').
Proof.
  unfold call_body. bind_step. bind_step.
  destruct (split (rng (self w)) 3) as [|a [|b [|c [|d l]]]] eqn:Hs;
    cbn [unpack3 raise ret]. 
  1: leaf. 1: leaf. 1: leaf. 2: leaf.
  assert (Hra : subkey (rng (self w)) a).
  { exists (rng (self w)), 3%nat. split; [apply reach_root|]. rewrite Hs. set_solver. }
  assert (Hrb : reach (rng (self w)) b).
  { eapply reach_split; [apply reach_root|]. rewrite Hs. set_solver. }
  assert (Hrc : reach (rng (self w)) c).
  { eapply reach_split; [apply reach_root|]. rewrite Hs. set_solver. }
  bind_step. bind_step. unfold next at 1. cbn [self iterators trace].
  destruct (iterators w !! tl) as [[|raw rest]|] eqn:Hit; [leaf | | leaf].
  bind_step.
  destruct (ot_solver (self w)) as [solver|] eqn:Hot;
    [ cbn [bind log modify self iterators trace ret];
      destruct (_resample_data _ _ _ _) as [[s cnd] t] eqn:Hres;
      cbn [bind log modify self iterators trace ret source target condition]
    | cbn [ret] ];
    bind_step;
    match goal with
    | |- context [step_fn ?k ?st ?bt ?w0] =>
        destruct (step_fn_spec k st bt w0)
          as [(a' & b' & c' & st' & loss & Hs' & ->)|(Hl & msg & ->)]
    end.
  2, 4: leaf.
  all: assert (Hka : subkey (rng (self w)) a')
    by (eapply subkey_in_split; [exact Hrb | rewrite Hs'; set_solver]).
  all: assert (Hkb : subkey (rng (self w)) b')
    by (eapply subkey_in_split; [exact Hrb | rewrite Hs'; set_solver]).
  all: assert (Hrc' : reach (rng (self w)) c')
    by (eapply reach_split; [exact Hrb | rewrite Hs'; set_solver]).
  all: cbn [self iterators trace fst]; bind_step; bind_step.
  all: destruct (learn_rescaling (self w)) eqn:Hlr;
    cbn [bind get log modify update_self self iterators trace raise ret].
  - tail w iter.
  - tail w iter.
  - leaf.
  - tail w iter.
Qed.

Lemma reach_trans root k k' : reach root k -> reach k k' -> reach root k'.
Proof.
  intros H1 H2. induction H2 as [|k1 k2 n _ IH Hin]; [exact H1|].
  eapply reach_split; eassumption.
Qed.

Lemma subkey_reach root k k' : reach root k -> subkey k k' -> subkey root k'.
Proof.
  intros H (k0 & n & Hr & Hin). exists k0, n.
  split; [eapply reach_trans; eassumption | exact Hin].
Qed.

Lemma allowed_reach root k e : reach root k -> allowed k e -> allowed root e.
Proof.
  intros Hr. destruct e; simpl; try (intros H; exact H).
  apply subkey_reach. exact Hr.
Qed.

Lemma same_config_trans o1 o2 o3 :
  same_config o1 o2 -> same_config o2 o3 -> same_config o1 o3.
Proof.
  unfold same_config. intros H1 H2.
  destruct H1 as (?&?&?&?&?&?&?&?), H2 as (?&?&?&?&?&?&?&?).
  repeat split; congruence.
Qed.

Lemma learn_rescaling_same_config o o' :
  same_config o o' -> learn_rescaling o = learn_rescaling o'.
Proof.
  intros (_&_&_&H1&H2&_). unfold learn_rescaling. rewrite H1, H2. reflexivity.
Qed.

(** The whole loop, summarised: the actions come in one block per started
    iteration. *)
Lemma for_each_call_body_spec tl vl iters w :
  exists r w' blocks,
    for_each iters (call_body tl vl) w = (r, w') /\
    trace w' = trace w ++ concat blocks /\
    same_config (self w) (self w') /\
    reach (rng (self w)) (rng (self w')) /\
    Forall (allowed (rng (self w))) (concat blocks) /\
    (length blocks <= length iters)%nat /\
    Forall (fun evs => (count is_train_draw evs <= 1)%nat /\
                       (count is_gradient_update evs <= 1)%nat) blocks /\
    (r = inr tt ->
     length blocks = length iters /\ Forall one_training_step blocks) /\
    ((forall k, length (split k 3) = 3%nat) ->
     valid_freq (self w) <> 0%Z ->
     (learn_rescaling (self w) = true -> is_Some (ot_solver (self w))) ->
     supplies tl vl (length iters) w -> r = inr tt).
Proof.
  revert w. induction iters as [|iter rest IH]; intros w.
  - exists (inr tt), w, []. cbn [for_each ret concat length].
    rewrite app_nil_r.
    split; [reflexivity|]. split; [reflexivity|].
    split; [apply same_config_refl|]. split; [apply reach_root|].
    split; [constructor|]. split; [lia|]. split; [constructor|].
    split; [intros _; split; [reflexivity | constructor]|].
    reflexivity.
  - cbn [for_each]. rewrite bind_run.
    destruct (call_body_spec tl vl iter w)
      as (r & w1 & evs & -> & Htr & Hcfg & Hrng & Hal & Hcnt & Hok & _ & Hsucc).
    destruct r as [e|[]].
    + exists (inl e), w1, [evs]. cbn [concat length]. rewrite app_nil_r.
      split; [reflexivity|]. split; [exact Htr|].
      split; [exact Hcfg|]. split; [exact Hrng|]. split; [exact Hal|].
      split; [lia|]. split; [constructor; [exact Hcnt | constructor]|].
      split; [discriminate|].
      intros Hsplit Hvf Hresc Hsup.
      destruct (Hsucc Hsplit Hvf Hresc (length rest) Hsup) as [? _].
      discriminate.
    + destruct (IH w1)
        as (r & w2 & blocks & -> & Htr2 & Hcfg2 & Hrng2 & Hal2 & Hlen2 & Hcnt2
            & Hok2 & Hsucc2).
      exists r, w2, (evs :: blocks). cbn [concat length].
      split; [reflexivity|].
      split; [rewrite Htr2, Htr, <- app_assoc; reflexivity|].
      split; [eapply same_config_trans; eassumption|].
      split; [eapply reach_trans; eassumption|].
      split.
      { apply Forall_app. split; [exact Hal|].
        eapply Forall_impl; [exact Hal2|].
        intros ev. apply allowed_reach. exact Hrng. }
      split; [lia|].
      split; [constructor; [exact Hcnt | exact Hcnt2]|].
      split.
      { intros Hr. destruct (Hok2 Hr) as [Hl Hall].
        split; [lia|]. constructor; [apply Hok; reflexivity | exact Hall]. }
      intros Hsplit Hvf Hresc Hsup.
      destruct (Hsucc Hsplit Hvf Hresc (length rest) Hsup) as [_ Hsup1].
      apply Hsucc2; try assumption.
      * destruct Hcfg as (_ & <- & _). exact Hvf.
      * rewrite <- (learn_rescaling_same_config _ _ Hcfg).
        destruct Hcfg as (_ & _ & <- & _). exact Hresc.
Qed.

Lemma range_length (n : Z) : length (range n) = Z.to_nat n.
Proof. unfold range. rewrite length_fmap, length_seq. reflexivity. Qed.

Lemma range_pos (n : Z) :
  (0 < n)%Z -> exists rest, range n = 0%Z :: rest.
Proof.
  intros Hn. unfold range.
  destruct (Z.to_nat n) as [|m] eqn:E; [lia|].
  eexists. reflexivity.
Qed.


(** C10.  A trainer with a rescaling sub-model ([mlp_eta] or [mlp_xi]) but
    without an OT solver fails in the first iteration of [__call__].  When
    the training iterator delivers a batch (and [random.split] yields three
    keys) the failure is the read of the unbound local [tmat], after the
    gradient step of that iteration. *)
Theorem rescaling_without_solver_fails (tl vl : nat) (w : World) :
  learn_rescaling (self w) = true ->
  ot_solver (self w) = None ->
  (0 < iterations (self w))%Z ->
  exists e w' evs,
    call tl vl w = (inl e, w') /\ emitted w w' evs /\
    ((forall k, length (split k 3) = 3%nat) ->
     available tl w <> 0%nat ->
     e = UnboundLocalError "tmat" /\ one_training_step evs).
Proof.
  intros Hlr Hot Hn. unfold call, emitted. rewrite bind_run. cbn [get].
  destruct (range_pos _ Hn) as [rest ->]. cbn [for_each]. rewrite bind_run.
  destruct (call_body_spec tl vl 0%Z w)
    as (r & w1 & evs & -> & Htr & _ & _ & _ & _ & _ & Hfail & _).
  destruct (Hfail Hlr Hot) as (e & -> & He).
  exists e, w1, evs. split; [reflexivity|]. split; assumption.
Qed.

(** C3 (what the code does).  The validation step of [OTFlowMatching] only
    draws a batch from the validation iterator: it leaves the trainer
    untouched and logs nothing but that draw, so the batch is not matched and
    no rescaling update is run.  And whatever the configuration, also with a
    [callback_fn], no run of [__call__] invokes the callback. *)
Theorem valid_step_only_draws (tl vl : nat) (iter : Z) (w : World) :
  (exists r w', _valid_step vl iter w = (r, w') /\ self w' = self w /\
                (emitted w w' [] \/ emitted w w' [NextValid])) /\
  (forall r w' evs, call tl vl w = (r, w') -> emitted w w' evs ->
                    CallbackInvoked ∉ evs).
Proof.
  split.
  - unfold _valid_step, emitted. rewrite bind_run. unfold next.
    destruct (iterators w !! vl) as [[|b rest]|]; cbn [ret self trace];
      eexists _, _; (split; [reflexivity|]); (split; [reflexivity|]);
      cbn [trace]; rewrite ?app_nil_r; auto.
  - intros r w' evs Hrun Hev Hin. unfold call in Hrun.
    rewrite bind_run in Hrun. cbn [get] in Hrun.
    destruct (for_each_call_body_spec tl vl (range (iterations (self w))) w)
      as (r0 & w0 & blocks & Hrun0 & Htr & _ & _ & Hal & _).
    rewrite Hrun0 in Hrun. injection Hrun as -> ->.
    unfold emitted in Hev. rewrite Htr in Hev. apply app_inv_head in Hev.
    subst evs. rewrite Forall_forall in Hal. exact (Hal _ Hin).
Qed.

(** C6.  [save], [load] and [training_logs] raise [NotImplementedError] for
    every trainer state and every argument, and change nothing. *)
Theorem persistence_not_implemented (path : string) (w : World) :
  save path w = (inl (NotImplementedError ""), w) /\
  load path w = (inl (NotImplementedError ""), w) /\
  training_logs w = (inl (NotImplementedError ""), w).
Proof. repeat split. Qed.

(** *** Further effects of one iteration and of the loop *)

Import OTFMRun.

Ltac counts_all :=
  rewrite ?count_app;
  cbn [count is_train_draw is_gradient_update is_validation is_checkpoint
       is_matched is_rescaling is_resample_key];
  rewrite ?count_key_used by (intros; reflexivity);
  repeat case_match; lia.

Ltac no_such_path :=
  exfalso;
  repeat match goal with
  | H : split ?k 3 = _, E : forall k, length (split k 3) = 3%nat |- _ =>
      let L := fresh in
      pose proof (E k) as L; rewrite H in L; simpl in L; clear H
  | H : split ?k 3 = _, E : length (split ?k 3) = 3%nat |- _ =>
      rewrite H in E; simpl in E; clear H
  | H : length (split ?k 3) <> _,
    E : forall k, length (split k 3) = 3%nat |- _ => apply H, E
  | H : (_ =? 0)%Z = true |- _ => apply Z.eqb_eq in H
  | H : (_ =? 0)%Z = false |- _ => apply Z.eqb_neq in H
  | H : true = true -> is_Some _ |- _ =>
      destruct (H eq_refl) as [? ?]; clear H
  end;
  first [ congruence | lia | loaders ].

Ltac effect_leaf :=
  unfold log, modify; cbn [bind get ret self iterators trace];
  eexists _, _, _; split; [reflexivity|];
  cbn [self iterators trace];
  split; [first [ symmetry; apply app_nil_r
                | rewrite <- ?app_assoc; reflexivity ]|];
  split; [unfold set_rescaling, set_state_neural_vector_field, set_rng;
          cbn; reflexivity|];
  split; [intros Hlr0;
          first [ discriminate Hlr0
                | split; [reflexivity|]; split; [reflexivity | counts_all] ]|];
  split; [intros Hot0;
          first [ discriminate Hot0 | split; counts_all ]|];
  split; [intros Hck0; first [ discriminate Hck0 | counts_all ]|];
  split; [intros ldr Hl1 Hl2; rewrite ?lookup_insert_ne by congruence;
          reflexivity|];
  split; [first
    [ discriminate
    | intros _;
      split; [cbn; unfold next_rng;
              match goal with H : split _ 3 = _ |- _ => rewrite H end;
              reflexivity|];
      split; [counts_all|]; split; [counts_all|]; split; [counts_all|];
      split; [counts_all|];
      unfold consumed, available; cbn [iterators]; loaders ]|];
  split;
  [ intros Hsp Hav;
    first [ split; [reflexivity|]; split; [reflexivity|];
            split; [cbn; unfold next_rng;
                    match goal with H : split _ 3 = _ |- _ => rewrite H end;
                    reflexivity|];
            split; reflexivity
          | no_such_path ]
  | intros Hz Hsplit Hav Hresc;
    first [ split; [reflexivity|]; split; [split; counts_all | counts_all]
          | no_such_path ] ].

Ltac effect_tail w iter :=
  bind_step; unfold py_mod;
  destruct (valid_freq (self w) =? 0)%Z eqn:Hvf; cbn [raise ret];
    [effect_leaf|];
  destruct (iter `mod` valid_freq (self w) =? 0)%Z eqn:Hmod; cbn [ret];
    [|effect_leaf];
  bind_step; unfold _valid_step; bind_step; unfold next at 1;
  cbn [self iterators trace];
  match goal with
  | |- context [(<[?i := ?x]> ?m) !! ?v] =>
      destruct ((<[i := x]> m) !! v) as [[|vraw vrest]|] eqn:Hvit
  end; cbn [ret]; [effect_leaf | | effect_leaf];
  destruct (checkpoint_manager (self w)) eqn:Hck; effect_leaf.

(** One iteration of the training loop: what it changes and what it
    consumes. *)
Lemma call_body_effect tl vl iter w :
  exists r w' evs,
    call_body tl vl iter w = (r, w') /\
    trace w' = trace w ++ evs /\
    state_mlp (self w') = state_mlp (self w) /\
    (learn_rescaling (self w) = false ->
     state_eta (self w') = state_eta (self w) /\
     state_xi (self w') = state_xi (self w) /\
     count is_rescaling evs = 0%nat) /\
    (ot_solver (self w) = None ->
     count is_matched evs = 0%nat /\ count is_resample_key evs = 0%nat) /\
    (checkpoint_manager (self w) = None -> count is_checkpoint evs = 0%nat) /\
    (forall l, l <> tl -> l <> vl -> iterators w' !! l = iterators w !! l) /\
    (r = inr tt ->
     rng (self w') = next_rng (rng (self w)) /\
     count is_validation evs =
       (if (iter mod valid_freq (self w) =? 0)%Z then 1 else 0)%nat /\
     count is_checkpoint evs =
       (if checkpoint_manager (self w) is Some _
        then if (iter mod valid_freq (self w) =? 0)%Z then 1 else 0
        else 0)%nat /\
     count is_matched evs =
       (if ot_solver (self w) is Some _ then 1 else 0)%nat /\
     count is_rescaling evs =
       (if learn_rescaling (self w) then 1 else 0)%nat /\
     consumed tl vl 1
       (if (iter mod valid_freq (self w) =? 0)%Z then 1 else 0) w w') /\
    (length (split (rng (self w)) 3) = 3%nat -> available tl w = 0%nat ->
     r = inl StopIteration /\ evs = [] /\
     rng (self w') = next_rng (rng (self w)) /\
     state_neural_vector_field (self w') =
       state_neural_vector_field (self w) /\
     iterators w' = iterators w) /\
    (valid_freq (self w) = 0%Z ->
     (forall k, length (split k 3) = 3%nat) ->
     available tl w <> 0%nat ->
     (learn_rescaling (self w) = true -> is_Some (ot_solver (self w))) ->
     r = inl ZeroDivisionError /\ one_training_step evs /\
     count is_validation evs = 0%nat).
Proof.
  unfold call_body. bind_step. bind_step.
  destruct (split (rng (self w)) 3) as [|a [|b [|c [|d l]]]] eqn:Hs;
    cbn [unpack3 raise ret].
  1: effect_leaf. 1: effect_leaf. 1: effect_leaf. 2: effect_leaf.
  bind_step. bind_step. unfold next at 1. cbn [self iterators trace].
  destruct (iterators w !! tl) as [[|raw rest]|] eqn:Hit;
    [effect_leaf | | effect_leaf].
  bind_step.
  destruct (ot_solver (self w)) as [solver|] eqn:Hot;
    [ cbn [bind log modify self iterators trace ret];
      destruct (_resample_data _ _ _ _) as [[s cnd] t] eqn:Hres;
      cbn [bind log modify self iterators trace ret source target condition]
    | cbn [ret] ];
    bind_step;
    match goal with
    | |- context [step_fn ?k ?st ?bt ?w0] =>
        destruct (step_fn_spec k st bt w0)
          as [(a' & b' & c' & st' & loss & Hs' & ->)|(Hl & msg & ->)]
    end.
  2, 4: effect_leaf.
  all: cbn [self iterators trace fst]; bind_step; bind_step.
  all: destruct (learn_rescaling (self w)) eqn:Hlr;
    cbn [bind get log modify update_self self iterators trace raise ret].
  - effect_tail w iter.
  - effect_tail w iter.
  - effect_leaf.
  - effect_tail w iter.
Qed.

Lemma validating_cons (vf iter : Z) (rest : list Z) :
  validating vf (iter :: rest) =
  ((if (iter mod vf =? 0)%Z then 1 else 0) + validating vf rest)%nat.
Proof.
  unfold validating, validates. cbn [List.filter].
  destruct (iter mod vf =? 0)%Z; reflexivity.
Qed.

Lemma consumed_step tl vl n v1 v2 w w1 w2 :
  consumed tl vl 1 v1 w w1 -> consumed tl vl n v2 w1 w2 ->
  consumed tl vl (S n) (v1 + v2) w w2.
Proof. unfold consumed. case_decide; lia. Qed.

Lemma consumed_refl tl vl w : consumed tl vl 0 0 w w.
Proof. unfold consumed. case_decide; lia. Qed.

(** The whole loop: what it changes and what it consumes. *)
Lemma for_each_call_body_effect tl vl iters w :
  exists r w' evs,
    for_each iters (call_body tl vl) w = (r, w') /\
    trace w' = trace w ++ evs /\
    state_mlp (self w') = state_mlp (self w) /\
    (learn_rescaling (self w) = false ->
     state_eta (self w') = state_eta (self w) /\
     state_xi (self w') = state_xi (self w) /\
     count is_rescaling evs = 0%nat) /\
    (ot_solver (self w) = None ->
     count is_matched evs = 0%nat /\ count is_resample_key evs = 0%nat) /\
    (checkpoint_manager (self w) = None -> count is_checkpoint evs = 0%nat) /\
    (forall l, l <> tl -> l <> vl -> iterators w' !! l = iterators w !! l) /\
    (r = inr tt ->
     rng (self w') = Nat.iter (length iters) next_rng (rng (self w)) /\
     count is_validation evs = validating (valid_freq (self w)) iters /\
     count is_checkpoint evs =
       (if checkpoint_manager (self w) is Some _
        then validating (valid_freq (self w)) iters else 0)%nat /\
     count is_matched evs =
       (if ot_solver (self w) is Some _ then length iters else 0)%nat /\
     count is_rescaling evs =
       (if learn_rescaling (self w) then length iters else 0)%nat /\
     consumed tl vl (length iters)
       (validating (valid_freq (self w)) iters) w w').
Proof.
  revert w. induction iters as [|iter rest IH]; intros w.
  - exists (inr tt), w, []. cbn [for_each ret length Nat.iter count].
    rewrite app_nil_r. unfold validating. cbn [List.filter length].
    split; [reflexivity|]. split; [reflexivity|]. split; [reflexivity|].
    split; [intros _; repeat split|]. split; [intros _; split; reflexivity|].
    split; [reflexivity|]. split; [reflexivity|].
    intros _. split; [reflexivity|]. split; [reflexivity|].
    split; [destruct (checkpoint_manager _); reflexivity|].
    split; [destruct (ot_solver _); reflexivity|].
    split; [destruct (learn_rescaling _); reflexivity|].
    apply consumed_refl.
  - cbn [for_each]. rewrite bind_run.
    destruct (call_body_spec tl vl iter w)
      as (r0 & w0 & evs0 & Hrun0 & _ & Hcfg & _).
    destruct (call_body_effect tl vl iter w)
      as (r & w1 & evs & Hrun & Htr & Hmlp & Hlr & Hot & Hck & Hoth & Hok & _).
    rewrite Hrun in Hrun0. injection Hrun0 as <- <-. rewrite Hrun.
    destruct r as [e|[]].
    + exists (inl e), w1, evs.
      split; [reflexivity|]. split; [exact Htr|]. split; [exact Hmlp|].
      split; [exact Hlr|]. split; [exact Hot|]. split; [exact Hck|].
      split; [exact Hoth|]. discriminate.
    + destruct (IH w1)
        as (r & w2 & evs2 & -> & Htr2 & Hmlp2 & Hlr2 & Hot2 & Hck2 & Hoth2
            & Hok2).
      pose proof (learn_rescaling_same_config _ _ Hcfg) as Elr.
      destruct Hcfg as (_ & Evf & Eot & _ & _ & _ & Eck & _).
      rewrite <- Elr in Hlr2. rewrite <- Eot in Hot2. rewrite <- Eck in Hck2.
      exists r, w2, (evs ++ evs2).
      split; [reflexivity|].
      split; [rewrite Htr2, Htr, <- app_assoc; reflexivity|].
      split; [congruence|].
      split.
      { intros H. destruct (Hlr H) as (? & ? & ?), (Hlr2 H) as (? & ? & ?).
        rewrite count_app. repeat split; try congruence. lia. }
      split.
      { intros H. destruct (Hot H), (Hot2 H). rewrite !count_app. lia. }
      split.
      { intros H. specialize (Hck H). specialize (Hck2 H).
        rewrite count_app. lia. }
      split.
      { intros l H1 H2. rewrite Hoth2, Hoth by assumption. reflexivity. }
      intros Hr. destruct (Hok eq_refl) as (K1 & K2 & K3 & K4 & K5 & K6).
      destruct (Hok2 Hr) as (L1 & L2 & L3 & L4 & L5 & L6).
      rewrite <- Evf, <- ?Eck, <- ?Eot, <- ?Elr in *.
      rewrite !count_app, validating_cons. cbn [length].
      split; [rewrite L1, K1, <- Nat.iter_succ_r; reflexivity|].
      split; [lia|].
      split; [destruct (checkpoint_manager (self w)); lia|].
      split; [destruct (ot_solver (self w)); lia|].
      split; [destruct (learn_rescaling (self w)); lia|].
      eapply consumed_step; eassumption.
Qed.

Lemma validates_zero (vf : Z) : validates vf 0 = true.
Proof. unfold validates. rewrite Zmod_0_l. reflexivity. Qed.

Lemma range_snoc (n : nat) :
  range (Z.of_nat (S n)) = range (Z.of_nat n) ++ [Z.of_nat n].
Proof.
  unfold range. rewrite !Nat2Z.id, seq_S, fmap_app. reflexivity.
Qed.

Lemma validating_app (vf : Z) (l1 l2 : list Z) :
  validating vf (l1 ++ l2) = (validating vf l1 + validating vf l2)%nat.
Proof. unfold validating. rewrite List.filter_app, length_app. reflexivity. Qed.

(** The validating iterations of [range(n)]: iteration 0 always is one, and
    it is the only one when [valid_freq] is at least [n]. *)
Lemma validations_bounds (vf : Z) (n : nat) :
  ((0 < n)%nat -> (1 <= validations vf n)%nat) /\
  ((0 < n)%nat -> (Z.of_nat n <= vf)%Z -> validations vf n = 1%nat).
Proof.
  unfold validations. induction n as [|n [IH1 IH2]]; [split; lia|].
  rewrite range_snoc, validating_app.
  destruct n as [|m].
  - cbn. rewrite validates_zero. cbn. split; reflexivity.
  - split; [intros _; specialize (IH1 ltac:(lia)); lia|].
    intros _ Hle. rewrite IH2 by lia.
    unfold validating, validates. cbn [List.filter].
    rewrite Z.mod_small by lia.
    destruct (Z.eqb_spec (Z.of_nat (S m)) 0); [lia | reflexivity].
Qed.

(** X6.  With [iterations <= 0] (also a negative number) [__call__]
    returns at once: no batch is drawn, nothing is logged and the trainer is
    unchanged. *)
Theorem call_without_iterations (tl vl : nat) (w : World) :
  (iterations (self w) <= 0)%Z -> call tl vl w = (inr tt, w).
Proof.
  intros Hn. unfold call. rewrite bind_run. cbn [get].
  unfold range. replace (Z.to_nat (iterations (self w))) with 0%nat by lia.
  reflexivity.
Qed.

(** X7.  A call that returns after [n] iterations leaves in [self.rng] the
    key obtained from the initial one by taking [n] times the third key of
    [random.split(key, 3)]. *)
Theorem call_advances_key (tl vl : nat) (w w' : World) (n : nat) :
  iterations (self w) = Z.of_nat n ->
  call tl vl w = (inr tt, w') ->
  rng (self w') = Nat.iter n next_rng (rng (self w)).
Proof.
  intros Hn Hrun. unfold call in Hrun. rewrite bind_run in Hrun.
  cbn [get] in Hrun.
  destruct (for_each_call_body_effect tl vl (range (iterations (self w))) w)
    as (r & w1 & evs & Hrun1 & _ & _ & _ & _ & _ & _ & Hok).
  rewrite Hrun1 in Hrun. injection Hrun as -> ->.
  destruct (Hok eq_refl) as (K & _).
  rewrite range_length, Hn, Nat2Z.id in K. exact K.
Qed.

(** X8.  A call that returns after [n] iterations has drawn exactly [n]
    batches from the training iterator and one batch from the validation
    iterator for every iteration with [iter % valid_freq == 0]; when one
    loader object is passed for both, it has lost the sum of the two.  No
    other iterator is touched. *)
Theorem call_consumes_batches (tl vl : nat) (w w' : World) (n : nat) :
  iterations (self w) = Z.of_nat n ->
  call tl vl w = (inr tt, w') ->
  consumed tl vl n (validations (valid_freq (self w)) n) w w' /\
  forall l, l <> tl -> l <> vl -> iterators w' !! l = iterators w !! l.
Proof.
  intros Hn Hrun. unfold call in Hrun. rewrite bind_run in Hrun.
  cbn [get] in Hrun.
  destruct (for_each_call_body_effect tl vl (range (iterations (self w))) w)
    as (r & w1 & evs & Hrun1 & _ & _ & _ & _ & _ & Hoth & Hok).
  rewrite Hrun1 in Hrun. injection Hrun as -> ->.
  destruct (Hok eq_refl) as (_ & _ & _ & _ & _ & K).
  rewrite range_length, Hn, Nat2Z.id in K.
  split; [exact K | exact Hoth].
Qed.

(** X9.  A call that returns after [n] iterations has run the validation
    step exactly at the iterations with [iter % valid_freq == 0]: at least
    once when [n > 0], because iteration 0 validates, and exactly once when
    [valid_freq >= n]. *)
Theorem call_validation_schedule (tl vl : nat) (w w' : World) (n : nat)
    (evs : list Event) :
  iterations (self w) = Z.of_nat n ->
  call tl vl w = (inr tt, w') ->
  emitted w w' evs ->
  count is_validation evs = validations (valid_freq (self w)) n /\
  ((0 < n)%nat -> (1 <= count is_validation evs)%nat) /\
  ((0 < n)%nat -> (Z.of_nat n <= valid_freq (self w))%Z ->
   count is_validation evs = 1%nat).
Proof.
  intros Hn Hrun Hev. unfold call in Hrun. rewrite bind_run in Hrun.
  cbn [get] in Hrun.
  destruct (for_each_call_body_effect tl vl (range (iterations (self w))) w)
    as (r & w1 & evs1 & Hrun1 & Htr & _ & _ & _ & _ & _ & Hok).
  rewrite Hrun1 in Hrun. injection Hrun as -> ->.
  unfold emitted in Hev. rewrite Htr in Hev. apply app_inv_head in Hev.
  subst evs1.
  destruct (Hok eq_refl) as (_ & K & _).
  rewrite Hn in K. fold (validations (valid_freq (self w)) n) in K.
  rewrite K. split; [reflexivity|]. apply validations_bounds.
Qed.

(** X10.  A call that returns saves one checkpoint per validating
    iteration when a checkpoint manager is configured (the attributes
    [state_mlp] and [state_xi] read on that path are taken to exist);
    without a checkpoint manager no run saves any, whatever its outcome. *)
Theorem call_checkpoints (tl vl : nat) (w w' : World) (n : nat)
    (r : exn + unit) (evs : list Event) :
  iterations (self w) = Z.of_nat n ->
  call tl vl w = (r, w') ->
  emitted w w' evs ->
  (checkpoint_manager (self w) = None -> count is_checkpoint evs = 0%nat) /\
  (r = inr tt -> is_Some (checkpoint_manager (self w)) ->
   count is_checkpoint evs = validations (valid_freq (self w)) n).
Proof.
  intros Hn Hrun Hev. unfold call in Hrun. rewrite bind_run in Hrun.
  cbn [get] in Hrun.
  destruct (for_each_call_body_effect tl vl (range (iterations (self w))) w)
    as (r1 & w1 & evs1 & Hrun1 & Htr & _ & _ & _ & Hck & _ & Hok).
  rewrite Hrun1 in Hrun. injection Hrun as -> ->.
  unfold emitted in Hev. rewrite Htr in Hev. apply app_inv_head in Hev.
  subst evs1. split; [exact Hck|].
  intros Hr [cm Hcm]. destruct (Hok Hr) as (_ & _ & K & _).
  rewrite Hcm, Hn in K. exact K.
Qed.

(** X11.  A trainer without rescaling sub-model never runs the rescaling
    update: whatever the outcome of [__call__], [state_eta] and [state_xi]
    are unchanged.  [state_mlp] is never written at all. *)
Theorem call_without_rescaling (tl vl : nat) (w w' : World)
    (r : exn + unit) (evs : list Event) :
  call tl vl w = (r, w') ->
  emitted w w' evs ->
  state_mlp (self w') = state_mlp (self w) /\
  (learn_rescaling (self w) = false ->
   state_eta (self w') = state_eta (self w) /\
   state_xi (self w') = state_xi (self w) /\
   count is_rescaling evs = 0%nat).
Proof.
  intros Hrun Hev. unfold call in Hrun. rewrite bind_run in Hrun.
  cbn [get] in Hrun.
  destruct (for_each_call_body_effect tl vl (range (iterations (self w))) w)
    as (r1 & w1 & evs1 & Hrun1 & Htr & Hmlp & Hlr & _).
  rewrite Hrun1 in Hrun. injection Hrun as -> ->.
  unfold emitted in Hev. rewrite Htr in Hev. apply app_inv_head in Hev.
  subst evs1. split; [exact Hmlp | exact Hlr].
Qed.


(** X13.  When the training iterator is already exhausted, a call with
    [iterations >= 1] raises [StopIteration] in its first iteration: nothing
    is logged and the model state and the iterators are unchanged, but
    [self.rng] has already been replaced by the third split key. *)
Theorem call_on_exhausted_loader (tl vl : nat) (w : World) :
  (0 < iterations (self w))%Z ->
  length (split (rng (self w)) 3) = 3%nat ->
  available tl w = 0%nat ->
  exists w',
    call tl vl w = (inl StopIteration, w') /\
    trace w' = trace w /\
    iterators w' = iterators w /\
    state_neural_vector_field (self w') = state_neural_vector_field (self w) /\
    rng (self w') = next_rng (rng (self w)).
Proof.
  intros Hn Hsp Hav. unfold call. rewrite bind_run. cbn [get].
  destruct (range_pos _ Hn) as [rest ->]. cbn [for_each]. rewrite bind_run.
  destruct (call_body_effect tl vl 0%Z w)
    as (r & w1 & evs & -> & Htr & _ & _ & _ & _ & _ & _ & Hex & _).
  destruct (Hex Hsp Hav) as (-> & -> & Hrng & Hst & Hit).
  rewrite app_nil_r in Htr.
  exists w1. repeat (split; [first [reflexivity | assumption]|]). exact Hrng.
Qed.

(** X14.  With [valid_freq = 0] a call with [iterations >= 1] raises
    [ZeroDivisionError] in its first iteration, after the training step of
    that iteration (one batch drawn, one gradient update) and before any
    validation. *)
Theorem call_with_zero_valid_freq (tl vl : nat) (w : World) :
  (0 < iterations (self w))%Z ->
  valid_freq (self w) = 0%Z ->
  (forall k, length (split k 3) = 3%nat) ->
  available tl w <> 0%nat ->
  (learn_rescaling (self w) = true -> is_Some (ot_solver (self w))) ->
  exists w' evs,
    call tl vl w = (inl ZeroDivisionError, w') /\
    emitted w w' evs /\
    one_training_step evs /\
    count is_validation evs = 0%nat.
Proof.
  intros Hn Hz Hsp Hav Hresc. unfold call, emitted. rewrite bind_run.
  cbn [get].
  destruct (range_pos _ Hn) as [rest ->]. cbn [for_each]. rewrite bind_run.
  destruct (call_body_effect tl vl 0%Z w)
    as (r & w1 & evs & -> & Htr & _ & _ & _ & _ & _ & _ & _ & Hzero).
  destruct (Hzero Hz Hsp Hav Hresc) as (-> & Hstep & Hval).
  exists w1, evs. repeat (split; [first [reflexivity | assumption]|]).
  exact Hval.
Qed.

(** X15.  Whatever its outcome, [__call__] only appends to the trace and
    never changes the configuration of the trainer ([iterations],
    [valid_freq], [ot_solver], the rescaling sub-models, [callback_fn],
    [checkpoint_manager], [input_dim]); the key it leaves in [self.rng] is
    derived from the initial one by splitting. *)
Theorem call_keeps_configuration (tl vl : nat) (w w' : World)
    (r : exn + unit) :
  call tl vl w = (r, w') ->
  same_config (self w) (self w') /\
  reach (rng (self w)) (rng (self w')) /\
  exists evs, emitted w w' evs.
Proof.
  intros Hrun. unfold call in Hrun. rewrite bind_run in Hrun.
  cbn [get] in Hrun.
  destruct (for_each_call_body_spec tl vl (range (iterations (self w))) w)
    as (r1 & w1 & blocks & Hrun1 & Htr & Hcfg & Hrng & _).
  rewrite Hrun1 in Hrun. injection Hrun as -> ->.
  split; [exact Hcfg|]. split; [exact Hrng|].
  exists (concat blocks). exact Htr.
Qed.


End Facts.

(** *** Randomness enters only through keys split off the root key *)

Section Keyed.

Context `{C : Carriers} {N : Numerics} (R1 R2 : Sampling).

(** One training step computes the same result with two families of
    stochastic collaborators that agree on the keys derived from [root]. *)
Lemma step_fn_agree (root key : Key) (st : TrainState) (batch : Batch)
    (w : World) :
  reach root key -> agree_on root R1 R2 ->
  step_fn (R := R1) key st batch w = step_fn (R := R2) key st batch w.
Proof.
  intros Hkey (Ht & Hn & _ & Hv). unfold step_fn.
  destruct (split key 3) as [|a [|b [|c [|d l]]]] eqn:Hs; try reflexivity.
  assert (Ha : subkey root a)
    by (eapply subkey_in_split; [exact Hkey | rewrite Hs; set_solver]).
  assert (Hb : subkey root b)
    by (eapply subkey_in_split; [exact Hkey | rewrite Hs; set_solver]).
  assert (Hc : reach root c)
    by (eapply reach_split; [exact Hkey | rewrite Hs; set_solver]).
  assert (Hks : Forall (subkey root) (split c (len (source batch)))).
  { apply Forall_forall. intros k Hk. eapply subkey_in_split; eassumption. }
  cbn [unpack3 bind ret get log modify fst snd self iterators trace].
  rewrite !bind_run, !for_each_log.
  unfold loss_fn, sample_noise.
  rewrite (Ht b _ Hb), (Hn a _ Ha), (Hv st _ _ _ _ Hks).
  reflexivity.
Qed.

(** One iteration of the loop computes the same result with both
    families. *)
Lemma call_body_agree (root : Key) (tl vl : nat) (iter : Z) (w : World) :
  reach root (rng (self w)) -> agree_on root R1 R2 ->
  call_body (R := R1) tl vl iter w = call_body (R := R2) tl vl iter w.
Proof.
  intros Hroot Hag. unfold call_body.
  rewrite !(bind_run get). cbn [get].
  rewrite !(bind_run (unpack3 _)).
  destruct (split (rng (self w)) 3) as [|a [|b [|c [|d l]]]] eqn:Hs;
    try reflexivity.
  cbn [unpack3 ret].
  assert (Ha : subkey root a)
    by (eapply subkey_in_split; [exact Hroot | rewrite Hs; set_solver]).
  assert (Hb : reach root b)
    by (eapply reach_split; [exact Hroot | rewrite Hs; set_solver]).
  rewrite !(bind_run (update_self _)).
  cbn [update_self modify self iterators trace].
  rewrite !(bind_run (next _ _)).
  destruct (next tl NextTrain _) as [[e|raw] w1]; [reflexivity|].
  destruct Hag as (Ht & Hn & Hr & Hv).
  destruct (ot_solver (self w)) as [solver|].
  - rewrite (Hr a _ _ _ Ha).
    repeat (rewrite ?bind_run; cbn [log modify ret self iterators trace]).
    destruct (_resample_data _ _ _ _) as [[s cnd] t].
    repeat (rewrite ?bind_run; cbn [log modify ret self iterators trace]).
    rewrite (step_fn_agree root b) by (repeat split; assumption).
    reflexivity.
  - repeat (rewrite ?bind_run; cbn [log modify ret self iterators trace]).
    rewrite (step_fn_agree root b) by (repeat split; assumption).
    reflexivity.
Qed.

Lemma for_each_call_body_agree (root : Key) (tl vl : nat) (iters : list Z)
    (w : World) :
  reach root (rng (self w)) -> agree_on root R1 R2 ->
  for_each iters (call_body (R := R1) tl vl) w =
  for_each iters (call_body (R := R2) tl vl) w.
Proof.
  intros Hroot Hag. revert w Hroot.
  induction iters as [|iter rest IH]; intros w Hroot; [reflexivity|].
  cbn [for_each]. rewrite !bind_run.
  rewrite (call_body_agree root) by assumption.
  destruct (call_body_spec (R := R2) tl vl iter w)
    as (r & w1 & evs & -> & _ & _ & Hrng & _).
  destruct r as [e|[]]; [reflexivity|].
  apply IH. eapply reach_trans; eassumption.
Qed.

(** C5.  The training loop draws its randomness only from keys split off
    the root key [self.rng].  Every key consumed by a stochastic operation of
    a run (time sampling, noise sampling, the per-sample model keys,
    resampling) is a sub-key of the root key; and two runs from the same
    store whose stochastic collaborators agree on the sub-keys of the root
    key, in particular two runs of the same program, end with the same
    outcome, the same trained state and the same trace. *)
Theorem training_randomness_is_keyed (tl vl : nat) (w : World) :
  agree_on (rng (self w)) R1 R2 ->
  call (R := R1) tl vl w = call (R := R2) tl vl w /\
  (forall r w' evs, call (R := R1) tl vl w = (r, w') -> emitted w w' evs ->
     forall op k, KeyUsed op k ∈ evs -> subkey (rng (self w)) k) /\
  (forall key st batch w0, reach (rng (self w)) key ->
     step_fn (R := R1) key st batch w0 = step_fn (R := R2) key st batch w0).
Proof.
  intros Hag. split; [|split].
  - unfold call. rewrite !bind_run. cbn [get].
    apply (for_each_call_body_agree (rng (self w)));
      [apply reach_root | exact Hag].
  - intros r w' evs Hrun Hev op k Hin. unfold call in Hrun.
    rewrite bind_run in Hrun. cbn [get] in Hrun.
    destruct (for_each_call_body_spec (R := R1) tl vl
                (range (iterations (self w))) w)
      as (r0 & w0 & blocks & Hrun0 & Htr & _ & _ & Hal & _).
    rewrite Hrun0 in Hrun. injection Hrun as -> ->.
    unfold emitted in Hev. rewrite Htr in Hev. apply app_inv_head in Hev.
    subst evs. rewrite Forall_forall in Hal. exact (Hal _ Hin).
  - intros key st batch w0 Hkey.
    apply (step_fn_agree (rng (self w))); assumption.
Qed.

End Keyed.

End OTFMFacts.

(** ** The validation step of the sibling trainer *)

Module FlowMatchingFacts.

Import Py FlowMatching.

Section Facts.

Variables Batch Arr Callback : Type.
Variable match_fn : Batch -> Batch * Arr * Arr.

(** In [flow_matching.py] the validation step does run the drawn batch
    through matching, runs the rescaling update when the trainer is not
    balanced, and invokes a configured callback on the matched batch and the
    two marginals. *)
Lemma valid_step_invokes_callback (o : FlowMatching Callback) (iter : Z)
    (w : World Batch Arr Callback) (b : Batch) (rest : list Batch)
    (f : Callback) :
  valid_iterator _ _ _ w = b :: rest ->
  callback_fn _ o = Some f ->
  exists w',
    _valid_step _ _ _ match_fn o iter w = (inr tt, w') /\
    valid_iterator _ _ _ w' = rest /\
    trace _ _ _ w' =
      trace _ _ _ w ++
      [NextValid _ _ _ b; Matched _ _ _ b] ++
      (if is_balanced _ o then []
       else [RescalingStep _ _ _ (match_fn b).1.1 (match_fn b).1.2 (match_fn b).2]) ++
      [CallbackInvoked _ _ _ f (match_fn b).1.1 (match_fn b).1.2 (match_fn b).2].
Proof.
  intros Hit Hcb. unfold _valid_step, bind, next_valid. rewrite Hit.
  cbn [log modify valid_iterator trace].
  destruct (match_fn b) as [[b' ma] mb]. cbn [fst snd].
  rewrite Hcb.
  destruct (is_balanced _ o); cbn [negb ret log modify valid_iterator trace];
    eexists; (split; [reflexivity|]); (split; [reflexivity|]);
    cbn [trace]; rewrite <- ?app_assoc; reflexivity.
Qed.

End Facts.

End FlowMatchingFacts.

(** ** Transport *)

Module TransportFacts.

Import Py Transport.

Lemma map_result_total {A B} (f : A -> exn + B) (g : A -> B) (l : list A) :
  (forall a, f a = inr (g a)) -> map_result f l = inr (g <$> l).
Proof.
  intros Hf. induction l as [|a l IH]; [reflexivity|].
  cbn [map_result]. rewrite Hf, IH. reflexivity.
Qed.

Section Facts.

Variables Point Cond Params : Type.
Variable apply_fn : Params -> Q -> Point -> option Cond -> Point.
Variable integrate : (Q -> Point -> Point) -> Q -> Q -> Point -> Point.

(** The per-sample solve returns the terminal state of the integration
    between the bounds selected by [forward]. *)
Lemma solve_ode_terminal params forward input cond :
  solve_ode apply_fn integrate params forward input cond =
  inr (integrate (fun t y => apply_fn params t y cond)
         (if forward then 0 else 1) (if forward then 1 else 0) input).
Proof. destruct forward; reflexivity. Qed.


End Facts.

End TransportFacts.

(** ** Matching dispatch *)

Module GenotFacts.

Import Py Genot.

Section Facts.

Variables Arr Matrix : Type.
Variable match_linear : option Arr -> option Arr -> exn + Matrix.
Variable match_quadratic :
  option Arr -> option Arr -> option Arr -> option Arr -> exn + Matrix.

(** The matching utilities themselves return a coupling. *)
Hypothesis match_linear_returns :
  forall x y, exists m, match_linear x y = inr m.
Hypothesis match_quadratic_returns :
  forall xx yy x y, exists m, match_quadratic xx yy x y = inr m.


End Facts.

End GenotFacts.

(** ** The barycenter convergence loop *)

Module BarycenterFacts.

Import Barycenter.

Lemma recorded_sentinels (m : nat) : recorded (replicate m sentinel) = [].
Proof. induction m as [|m IH]; [reflexivity|]. cbn. exact IH. Qed.

Lemma recorded_costs (pre : list Q) (m : nat) :
  Forall (fun c => sentinel < c) pre ->
  recorded (pre ++ replicate m sentinel) = pre.
Proof.
  intros Hpre. unfold recorded. rewrite List.filter_app.
  fold (recorded (replicate m sentinel)). rewrite recorded_sentinels, app_nil_r.
  induction Hpre as [|c pre Hc _ IH]; [reflexivity|].
  cbn [List.filter]. rewrite IH.
  destruct (Qle_bool c sentinel) eqn:E; [|reflexivity].
  apply Qle_bool_iff in E. exfalso. revert Hc. apply Qle_not_lt. exact E.
Qed.

Section Facts.

Variable BarState : Type.
Variable update : BarState -> BarState.
Variable total_cost : BarState -> Q.
Variable threshold : Q.

(** Total costs are distinguishable from the sentinel. *)
Hypothesis total_cost_above_sentinel : forall s, sentinel < total_cost s.

(** The loop started at slot [i] with [budget] free slots: it fills the
    slots in order, leaves the others at the sentinel, and stops before the
    budget is used up only when the last two costs agree. *)
Lemma iterate_spec (budget : nat) :
  forall (i : nat) (st : SolverState BarState) (pre : list Q),
    costs st = pre ++ replicate budget sentinel ->
    length pre = i ->
    Forall (fun c => sentinel < c) pre ->
    exists (pre' : list Q) (k : nat),
      costs (iterate BarState update total_cost threshold budget i st).1 =
        pre' ++ replicate (i + budget - k) sentinel /\
      (iterate BarState update total_cost threshold budget i st).2 = k /\
      length pre' = k /\
      Forall (fun c => sentinel < c) pre' /\
      (i <= k <= i + budget)%nat /\
      ((k < i + budget)%nat -> last_two_agree threshold pre').
Proof using total_cost_above_sentinel.
  induction budget as [|b IH]; intros i st pre Hc Hlen Hpre.
  - exists pre, i. cbn [iterate fst snd replicate].
    rewrite Hc. replace (i + 0 - i)%nat with 0%nat by lia.
    repeat split; try assumption; try lia.
  - cbn [iterate].
    set (c := total_cost (update (x st))).
    assert (Hins : <[i := c]> (costs st) = (pre ++ [c]) ++ replicate b sentinel).
    { rewrite Hc. cbn [replicate].
      rewrite insert_app_r_alt by lia.
      replace (i - length pre)%nat with 0%nat by lia.
      cbn. rewrite <- app_assoc. reflexivity. }
    cbn [costs]. rewrite Hins.
    assert (Hpre' : Forall (fun c => sentinel < c) (pre ++ [c])).
    { apply Forall_app. split; [exact Hpre|].
      constructor; [apply total_cost_above_sentinel | constructor]. }
    destruct (converged threshold ((pre ++ [c]) ++ replicate b sentinel) i) eqn:Hconv.
    + exists (pre ++ [c]), (S i). cbn [fst snd costs].
      replace (i + S b - S i)%nat with b by lia.
      split; [reflexivity|]. split; [reflexivity|].
      split; [rewrite length_app; cbn; lia|].
      split; [exact Hpre'|]. split; [lia|].
      intros _. unfold converged in Hconv.
      destruct i as [|j]; [discriminate|].
      destruct pre as [|a0 pre0 _] using rev_ind; [discriminate|].
      rewrite length_app in Hlen. cbn in Hlen.
      assert (Hj : j = length pre0) by lia. subst j.
      rewrite <- !app_assoc in Hconv. cbn [app] in Hconv.
      rewrite lookup_app_r in Hconv by lia.
      replace (length pre0 - length pre0)%nat with 0%nat in Hconv by lia.
      cbn [lookup list_lookup] in Hconv.
      rewrite lookup_app_r in Hconv by lia.
      replace (S (length pre0) - length pre0)%nat with 1%nat in Hconv by lia.
      cbn [lookup list_lookup] in Hconv.
      exists pre0, a0, c. split; [rewrite <- app_assoc; reflexivity | exact Hconv].
    + destruct (IH (S i)
                  {| x := update (x st);
                     costs := (pre ++ [c]) ++ replicate b sentinel |}
                  (pre ++ [c]) eq_refl)
        as (pre' & k & H1 & H2 & H3 & H4 & H5 & H6);
        [rewrite length_app; cbn; lia | exact Hpre' |].
      exists pre', k.
      replace (i + S b - k)%nat with (S i + b - k)%nat by lia.
      split; [exact H1|]. split; [exact H2|]. split; [exact H3|].
      split; [exact H4|]. split; [lia|].
      intros Hk. apply H6. lia.
Qed.


End Facts.


End BarycenterFacts.

(** ** The properties on the concrete instance *)

Module ReferenceRuns.

Import Py OTFM Reference.



Lemma reference_reach_nonneg (k : Z) :
  reach (N := numerics) 0%Z k -> (0 <= k)%Z.
Proof.
  induction 1 as [|k k' n _ IH Hin]; [lia|].
  apply list_elem_of_fmap in Hin as (i & -> & _). lia.
Qed.

Lemma reference_subkey_pos (k : Z) :
  subkey (N := numerics) 0%Z k -> (0 < k)%Z.
Proof.
  intros (k0 & n & Hk0 & Hin). apply reference_reach_nonneg in Hk0.
  apply list_elem_of_fmap in Hin as (i & -> & _). lia.
Qed.

(** Two runs of the reference trainer from the same store, the second with
    a time sampler that differs away from the sub-keys of the root key. *)
Lemma training_randomness_is_keyed_witness :
  agree_on (rng (self (world trainer))) sampling sampling_on_subkeys /\
  call (R := sampling) 0 0 (world trainer) =
  call (R := sampling_on_subkeys) 0 0 (world trainer).
Proof.
  assert (Hag : agree_on (rng (self (world trainer)))
                  sampling sampling_on_subkeys).
  { split; [|repeat split; reflexivity].
    intros k n Hk. apply reference_subkey_pos in Hk.
    cbn. unfold uniform_times_on_subkeys.
    rewrite (proj2 (Z.ltb_lt 0 k) Hk). reflexivity. }
  split; [exact Hag|].
  exact (proj1 (OTFMFacts.training_randomness_is_keyed
                  sampling sampling_on_subkeys 0 0 (world trainer) Hag)).
Defined.




(** A rescaling sub-model without OT solver: the first iteration fails on
    the unbound [tmat]. *)
Lemma rescaling_without_solver_fails_witness :
  learn_rescaling (self (world trainer_rescaling_only)) = true /\
  ot_solver (self (world trainer_rescaling_only)) = None /\
  exists w' evs,
    call 0 0 (world trainer_rescaling_only) =
      (inl (UnboundLocalError "tmat"), w') /\
    emitted (world trainer_rescaling_only) w' evs /\
    one_training_step evs.
Proof.
  assert (H1 : learn_rescaling (self (world trainer_rescaling_only)) = true)
    by reflexivity.
  assert (H2 : ot_solver (self (world trainer_rescaling_only)) = None)
    by reflexivity.
  repeat (split; [assumption|]).
  destruct (OTFMFacts.rescaling_without_solver_fails 0 0
              (world trainer_rescaling_only) H1 H2)
    as (e & w' & evs & Hrun & Hev & Hwhy); [simpl; lia|].
  destruct Hwhy as [-> Hstep]; [reflexivity | vm_compute; lia |].
  exists w', evs. repeat (split; [assumption|]). exact Hstep.
Defined.

(** The failing configuration of the sampler, evaluated: [low = 2],
    [high = 3], [offset = 0] and two samples. *)
Example sample_uniformly_offset_low2 :
  Samplers.sample_uniformly unit_uniform 5%Z 2 2 3 (Some 0) =
  [Some (1216 # 2000); Some (216 # 2000)].
Proof. vm_compute. reflexivity. Qed.

(** The reference trainer has a callback configured; its run validates at
    iterations 0 and 2 and never invokes the callback. *)
Example reference_run_trace :
  callback_fn trainer = Some tt /\
  (call 0 0 (world trainer)).1 = inr tt /\
  trace (call 0 0 (world trainer)).2 =
  [NextTrain; Matched; KeyUsed OpResample 1%Z;
   KeyUsed OpTime 2002%Z; KeyUsed OpNoise 2001%Z;
   KeyUsed OpModel 2003001%Z; KeyUsed OpModel 2003002%Z;
   GradientApplied; NextValid; NextTrain; Matched;
   KeyUsed OpResample 3001%Z; KeyUsed OpTime 3002002%Z;
   KeyUsed OpNoise 3002001%Z; KeyUsed OpModel 3002003001%Z;
   KeyUsed OpModel 3002003002%Z; GradientApplied; NextTrain; Matched;
   KeyUsed OpResample 3003001%Z; KeyUsed OpTime 3003002002%Z;
   KeyUsed OpNoise 3003002001%Z; KeyUsed OpModel 3003002003001%Z;
   KeyUsed OpModel 3003002003002%Z; GradientApplied; NextValid].
Proof. split; [reflexivity|]. split; vm_compute; reflexivity. Qed.

End ReferenceRuns.

(** ** More on the time sampler *)

Module SamplersExtra.

Import Samplers SamplersFacts.

Lemma Qfloor_unique (q : Q) (z : Z) :
  inject_Z z <= q -> q < inject_Z z + 1 -> Qfloor q = z.
Proof.
  intros Hlo Hhi. destruct (Qfloor_bounds q) as [Flo Fhi].
  assert (H1 : inject_Z z < inject_Z (Qfloor q + 1)).
  { rewrite inject_Z_plus. eapply Qle_lt_trans; eassumption. }
  assert (H2 : inject_Z (Qfloor q) < inject_Z (z + 1)).
  { rewrite inject_Z_plus. eapply Qle_lt_trans; eassumption. }
  rewrite <- Zlt_Qlt in H1, H2. lia.
Qed.

(** With a negative modulus the remainder lies in [(m, 0]]. *)
Lemma remainder_neg_range (a m : Q) :
  m < 0 -> exists r, remainder a m = Some r /\ m < r /\ r <= 0.
Proof.
  intros Hm.
  assert (Hne : ~ m == 0) by (intros E; rewrite E in Hm; revert Hm; apply Qlt_irrefl).
  eexists. split; [apply remainder_nonzero; exact Hne|].
  destruct (Qfloor_bounds (a / m)) as [Hlo Hhi].
  set (f := inject_Z (Qfloor (a / m))) in *.
  assert (Ha : a == m * (a / m)) by (field; exact Hne).
  assert (Hpos : 0 < - m) by lra.
  assert (H1 : (- m) * f <= (- m) * (a / m)) by (apply Qmult_le_l; assumption).
  assert (H2 : (- m) * (a / m) < (- m) * (f + 1)) by (apply Qmult_lt_l; assumption).
  split; lra.
Qed.

Section Extra.

Variable Key : Type.
Variable unit_uniform : Key -> nat -> nat -> Q.
Hypothesis unit_uniform_range :
  forall rng n i, 0 <= unit_uniform rng n i /\ unit_uniform rng n i < 1.

(** X1.  Without offset, [sample_uniformly] returns [num_samples] samples,
    none of them NaN and each in [[low, high)]. *)
Theorem sample_uniformly_plain_range (rng : Key) (n : nat) (low high : Q) :
  low < high ->
  length (sample_uniformly unit_uniform rng n low high None) = n /\
  forall s, s ∈ sample_uniformly unit_uniform rng n low high None ->
            in_range low high s.
Proof using unit_uniform_range.
  intros Hlh. split; [apply sample_uniformly_length|].
  intros s Hs. eapply sample_uniformly_plain_in_range; eassumption.
Qed.


(** X3.  When the offset equals the range the modulus is zero and every
    sample is NaN. *)
Theorem sample_uniformly_offset_nan (rng : Key) (n : nat) (low high off : Q) :
  (high - low) - off == 0 ->
  sample_uniformly unit_uniform rng n low high (Some off) = replicate n None.
Proof.
  intros Hm. unfold sample_uniformly. cbv zeta.
  apply list_eq. intros i. rewrite list_lookup_fmap.
  destruct (decide (i < n)%nat) as [Hi|Hi].
  - rewrite arange_lookup by exact Hi. rewrite lookup_replicate_2 by exact Hi.
    cbn. unfold remainder. rewrite (Qeq_eq_bool _ _ Hm). reflexivity.
  - rewrite (lookup_ge_None_2 (arange n)) by (rewrite arange_length; lia).
    symmetry. apply lookup_replicate_None. lia.
Qed.



End Extra.

End SamplersExtra.

(** ** The data loaders of the test suite *)

Module ConftestFacts.

Import Conftest.

Section Facts.

Variables Key Row : Type.
Variable split : Key -> nat -> list Key.
Variable choice : Key -> nat -> nat -> list nat.
Variable choice_p : Key -> nat -> list Q -> nat.

(** [random.split] returns as many keys as asked for, and [random.choice]
    returns the requested number of indices, all below the population
    size. *)
Hypothesis split_length : forall k n, length (split k n) = n.
Hypothesis choice_spec :
  forall k a n, (0 < a)%nat ->
    length (choice k a n) = n /\ Forall (fun i => (i < a)%nat) (choice k a n).
Hypothesis choice_p_spec :
  forall k a q, (0 < a)%nat -> (choice_p k a q < a)%nat.

Lemma split2 (k : Key) :
  exists a b, split k 2 = [a; b].
Proof using split_length.
  pose proof (split_length k 2) as H.
  destruct (split k 2) as [|a [|b [|c l]]]; try discriminate H.
  eexists _, _; reflexivity.
Qed.

Lemma take_rows_length (data : list Row) (inds : list nat) :
  data <> [] -> length (take_rows data inds) = length inds.
Proof.
  intros Hd. unfold take_rows. induction inds as [|i inds IH]; [reflexivity|].
  cbn [omap list_omap].
  destruct (lookup_lt_is_Some_2 data (i `min` pred (length data))%nat)
    as [r Hr].
  { destruct data; [contradiction | cbn; lia]. }
  rewrite Hr. cbn. f_equal. exact IH.
Qed.

Lemma take_rows_elem_of (data : list Row) (inds : list nat) (r : Row) :
  r ∈ take_rows data inds -> r ∈ data.
Proof.
  unfold take_rows. intros H.
  apply list_elem_of_omap in H as (i & _ & Hi).
  eapply list_elem_of_lookup_2. exact Hi.
Qed.

Lemma random_choice_ok (k : Key) (a n : nat) :
  (0 < a)%nat ->
  exists inds, random_choice choice k a n = inr inds /\ length inds = n.
Proof using choice_spec.
  intros Ha. unfold random_choice.
  destruct (decide (n = 0%nat)) as [->|Hn]; [exists []; split; reflexivity|].
  rewrite decide_False by lia.
  eexists. split; [reflexivity|]. apply choice_spec. exact Ha.
Qed.

(** One call of [DataLoader.__next__] on non-empty data. *)
Lemma DataLoader_next_ok (o : DataLoader Key Row) :
  source_data o <> [] -> target_data o <> [] ->
  exists k k' src tgt cond,
    split (key o) 2 = [k; k'] /\
    DataLoader_next split choice o =
      (inr (src, tgt, cond), set_key Key Row k' o) /\
    length src = batch_size o /\ length tgt = batch_size o /\
    (forall r, r ∈ src -> r ∈ source_data o) /\
    (forall r, r ∈ tgt -> r ∈ target_data o) /\
    (cond = None <-> conditions o = None) /\
    (forall rows c, cond = Some rows -> conditions o = Some c ->
       forall r, r ∈ rows -> r ∈ c).
Proof using split_length choice_spec.
  intros Hs Ht. destruct (split2 (key o)) as (k & k' & Hk).
  destruct (random_choice_ok k (length (source_data o)) (batch_size o))
    as (isrc & His & Hls).
  { destruct (source_data o); [contradiction | cbn; lia]. }
  destruct (random_choice_ok k (length (target_data o)) (batch_size o))
    as (itgt & Hit & Hlt).
  { destruct (target_data o); [contradiction | cbn; lia]. }
  exists k, k'. eexists _, _, _. split; [exact Hk|].
  unfold DataLoader_next. rewrite Hk. cbn [unpack2]. rewrite His, Hit.
  split; [reflexivity|].
  split; [rewrite take_rows_length by exact Hs; exact Hls|].
  split; [rewrite take_rows_length by exact Ht; exact Hlt|].
  split; [intros r; apply take_rows_elem_of|].
  split; [intros r; apply take_rows_elem_of|].
  split.
  - destruct (conditions o); cbn; split; intros H; try discriminate H;
      reflexivity.
  - intros rows c Hrows Hc r Hr. rewrite Hc in Hrows. cbn in Hrows.
    injection Hrows as <-. eapply take_rows_elem_of. exact Hr.
Qed.

(** X19.  On non-empty source and target data, [DataLoader.__next__]
    returns a batch of exactly [batch_size] source rows and [batch_size]
    target rows, all taken from the loader's data; the condition rows are
    present exactly when the loader has conditions; the data are unchanged
    and the loader's key is replaced by the second key of the split. *)
Theorem DataLoader_next_batch (o : DataLoader Key Row) :
  source_data o <> [] -> target_data o <> [] ->
  exists k k' src tgt cond,
    split (key o) 2 = [k; k'] /\
    DataLoader_next split choice o =
      (inr (src, tgt, cond), set_key Key Row k' o) /\
    length src = batch_size o /\ length tgt = batch_size o /\
    (forall r, r ∈ src -> r ∈ source_data o) /\
    (forall r, r ∈ tgt -> r ∈ target_data o) /\
    (cond = None <-> conditions o = None) /\
    (forall rows c, cond = Some rows -> conditions o = Some c ->
       forall r, r ∈ rows -> r ∈ c).
Proof using split_length choice_spec.
  apply DataLoader_next_ok.
Qed.

(** X20.  A [DataLoader] on non-empty data is never exhausted: any number
    of successive calls of [next] returns that many batches, each with
    [batch_size] source and target rows, and leaves the data of the loader
    as they were. *)
Theorem DataLoader_never_exhausted (n : nat) (o : DataLoader Key Row) :
  source_data o <> [] -> target_data o <> [] ->
  exists bs o',
    DataLoader_draw split choice n o = (inr bs, o') /\
    length bs = n /\
    Forall (fun b : list Row * list Row * option (list Row) =>
              length b.1.1 = batch_size o /\ length b.1.2 = batch_size o) bs /\
    source_data o' = source_data o /\ target_data o' = target_data o /\
    conditions o' = conditions o /\ batch_size o' = batch_size o.
Proof using split_length choice_spec.
  revert o. induction n as [|n IH]; intros o Hs Ht.
  - exists [], o. repeat split. constructor.
  - destruct (DataLoader_next_ok o Hs Ht)
      as (k & k' & src & tgt & cond & _ & Hrun & Hls & Hlt & _).
    destruct (IH (set_key Key Row k' o) Hs Ht)
      as (bs & o' & Hdraw & Hlen & Hall & E1 & E2 & E3 & E4).
    exists ((src, tgt, cond) :: bs), o'.
    cbn [DataLoader_draw]. rewrite Hrun, Hdraw.
    split; [reflexivity|]. split; [cbn; lia|].
    split; [constructor; [split; assumption | exact Hall]|].
    repeat split; assumption.
Qed.

End Facts.

Section Plain.

Variables Key Row : Type.
Variable split : Key -> nat -> list Key.
Variable choice : Key -> nat -> nat -> list nat.
Variable choice_p : Key -> nat -> list Q -> nat.

(** X21.  Both index arrays of [DataLoader.__next__] are drawn with the
    same key: when source and target data have the same number of rows, one
    index array selects the source rows, the target rows and the condition
    rows of the returned batch. *)
Theorem DataLoader_next_paired (o o' : DataLoader Key Row)
    (src tgt : list Row) (cond : option (list Row)) :
  length (source_data o) = length (target_data o) ->
  DataLoader_next split choice o = (inr (src, tgt, cond), o') ->
  exists inds : list nat,
    src = take_rows (source_data o) inds /\
    tgt = take_rows (target_data o) inds /\
    cond = (fun c => take_rows c inds) <$> conditions o.
Proof.
  intros Hlen Hrun. unfold DataLoader_next in Hrun.
  destruct (unpack2 Key (split (key o) 2)) as [e|[k k']]; [discriminate Hrun|].
  rewrite <- Hlen in Hrun.
  destruct (random_choice choice k (length (source_data o)) (batch_size o))
    as [e|inds]; [discriminate Hrun|].
  injection Hrun as <- <- <- _. exists inds. repeat split.
Qed.

(** X22.  With an empty source or target array and a positive batch size,
    [DataLoader.__next__] raises [ValueError]; the key of the loader has
    been replaced all the same. *)
Theorem DataLoader_next_empty (o : DataLoader Key Row) (k k' : Key) :
  split (key o) 2 = [k; k'] ->
  batch_size o <> 0%nat ->
  source_data o = [] \/ target_data o = [] ->
  exists msg,
    DataLoader_next split choice o =
      (inl (ValueError msg), set_key Key Row k' o).
Proof.
  intros Hk Hb Hempty. unfold DataLoader_next. rewrite Hk. cbn [unpack2].
  unfold random_choice.
  destruct (decide (batch_size o = 0%nat)) as [E|_]; [contradiction|].
  destruct Hempty as [-> | ->]; cbn [length].
  - destruct (decide (0%nat = 0%nat)) as [_|E]; [|contradiction].
    eexists. reflexivity.
  - destruct (decide (0%nat = 0%nat)) as [_|E]; [|contradiction].
    destruct (decide (length (source_data o) = 0%nat));
      eexists; reflexivity.
Qed.

Lemma dict_get_name (d : list (string * nat)) (name : string) :
  name ∈ (fst <$> d) -> is_Some (dict_get d name).
Proof.
  induction d as [|[n x] d IH]; cbn; [intros H; inversion H|].
  intros H.
  destruct (String.eqb_spec n name) as [->|Hn]; [eexists; reflexivity|].
  apply IH. apply elem_of_cons in H as [->|H]; [contradiction | exact H].
Qed.

(** X23.  [ConditionalDataLoader.__next__] on a non-empty dictionary with
    one probability per condition runs [next] on exactly one loader object,
    the one stored under the chosen condition, and returns or raises what
    that [next] does; neither the list of conditions nor the dictionary
    fails to have the chosen entry.  Every other loader object, the
    dictionary and the probabilities are unchanged, and [self.rng] becomes
    the first key of the split. *)
Theorem ConditionalDataLoader_next_frame (o : ConditionalDataLoader Key)
    (h : Store Key Row) (k k' : Key) :
  split (rng o) 2 = [k; k'] ->
  dataloaders o <> [] ->
  length (p o) = length (cond_names o) ->
  (choice_p k' (length (cond_names o)) (p o) < length (cond_names o))%nat ->
  exists name ref o' h',
    cond_names o !! choice_p k' (length (cond_names o)) (p o) = Some name /\
    dict_get (dataloaders o) name = Some ref /\
    ConditionalDataLoader_next split choice choice_p o h =
      ((DataLoader_next split choice (h ref)).1, o', h') /\
    h' ref = (DataLoader_next split choice (h ref)).2 /\
    (forall r, r <> ref -> h' r = h r) /\
    dataloaders o' = dataloaders o /\ p o' = p o /\ rng o' = k.
Proof.
  intros Hk Hne Hp Hidx.
  destruct (lookup_lt_is_Some_2 _ _ Hidx) as [name Hname].
  destruct (dict_get_name (dataloaders o) name) as [ref Href].
  { eapply list_elem_of_lookup_2. exact Hname. }
  exists name, ref. unfold ConditionalDataLoader_next.
  rewrite Hk. cbn [unpack2].
  destruct (cond_names o) as [|n0 ns] eqn:Hnames.
  { unfold cond_names in Hnames. destruct (dataloaders o); [contradiction|].
    discriminate Hnames. }
  rewrite Hp, Nat.eqb_refl. cbn [negb].
  rewrite Hname, Href.
  destruct (DataLoader_next split choice (h ref)) as [r loader'].
  eexists _, _. split; [reflexivity|]. split; [reflexivity|].
  split; [reflexivity|]. cbn [dataloaders p rng fst snd].
  split; [unfold store_set; rewrite decide_True; reflexivity|].
  split; [intros r0 Hr; unfold store_set; rewrite decide_False;
          [reflexivity | exact Hr]|].
  split; [reflexivity|]. split; reflexivity.
Qed.

(** X24.  [GENOTDataLoader.__next__] sizes its index arrays with
    [len(self.source_lin)] and [len(self.target_lin)] before testing any
    array for [None]: a loader without linear source or target array never
    returns a batch, and one without [source_lin] raises [TypeError], after
    its key has been replaced. *)
Theorem GENOTDataLoader_next_needs_lin (o : GENOTDataLoader Key Row) :
  (source_lin o = None \/ target_lin o = None ->
   exists e, (GENOTDataLoader_next split choice o).1 = inl e) /\
  (forall k k', split (genot_key o) 2 = [k; k'] -> source_lin o = None ->
   exists msg,
     GENOTDataLoader_next split choice o =
       (inl (TypeError msg), set_genot_key Key Row k' o)).
Proof.
  split.
  - intros Hnone. unfold GENOTDataLoader_next.
    destruct (unpack2 Key (split (genot_key o) 2)) as [e|[k k']];
      [eexists; reflexivity|].
    destruct Hnone as [-> | Ht].
    + cbn. eexists. reflexivity.
    + destruct (len_opt Row (source_lin o)) as [e|ns]; [eexists; reflexivity|].
      destruct (random_choice choice k ns (genot_batch_size o)) as [e|isrc];
        [eexists; reflexivity|].
      rewrite Ht. cbn. eexists. reflexivity.
  - intros k k' Hk Hs. unfold GENOTDataLoader_next.
    rewrite Hk, Hs. cbn. eexists. reflexivity.
Qed.

End Plain.

End ConftestFacts.

(** ** Checkpoint contents, transport of batches, the sibling validation
       step *)

Module MoreFacts.

Import Py.

Section Checkpoint.

Import OTFM.

Context `{C : Carriers}.


End Checkpoint.

Section TransportBatches.

Import Transport.

Variables Point Cond Params : Type.
Variable apply_fn : Params -> Q -> Point -> option Cond -> Point.
Variable integrate : (Q -> Point -> Point) -> Q -> Q -> Point -> Point.

Lemma solve_ode_flow params forward input cond :
  solve_ode apply_fn integrate params forward input cond =
  inr (TransportFlow.flow apply_fn integrate params forward cond input).
Proof. destruct forward; reflexivity. Qed.

Lemma map_result_inr {A B} (f : A -> exn + B) (g : A -> B) (l : list A) :
  (forall a, f a = inr (g a)) -> map_result f l = inr (g <$> l).
Proof.
  intros Hf. induction l as [|a l IH]; [reflexivity|].
  cbn [map_result]. rewrite Hf, IH. reflexivity.
Qed.

(** [transport] in closed form. *)
Lemma transport_closed_form params data condition forward :
  (forall cs, condition = Some cs -> length cs = length data) ->
  transport apply_fn integrate params data condition forward =
  inr (match condition with
       | None =>
           TransportFlow.flow apply_fn integrate params forward None <$> data
       | Some cs =>
           zip_with
             (fun y0 c =>
                TransportFlow.flow apply_fn integrate params forward (Some c) y0)
             data cs
       end).
Proof.
  intros Hlen. unfold transport, vmap. destruct condition as [cs|].
  - rewrite decide_True by (apply Hlen; reflexivity).
    erewrite map_result_inr by (intros a; apply solve_ode_flow).
    f_equal. clear Hlen. revert cs.
    induction data as [|y0 data IH]; intros [|c cs]; try reflexivity.
    cbn. f_equal. apply IH.
  - erewrite map_result_inr
      by (intros a; apply (solve_ode_flow params forward a None)).
    reflexivity.
Qed.



End TransportBatches.

End MoreFacts.

(** ** The further properties on the concrete instances *)

Module ExtraRuns.

Import Py OTFM OTFMRun Reference ReferenceExtra.

Lemma reference_unit_uniform_range (rng : Z) (n i : nat) :
  0 <= unit_uniform rng n i /\ unit_uniform rng n i < 1.
Proof.
  unfold unit_uniform.
  pose proof (Z.mod_pos_bound (rng * 7919 + Z.of_nat i * 104729 + 13) 1000
                ltac:(lia)) as H.
  unfold Qle, Qlt. cbn. lia.
Qed.

Lemma reference_split_length (k : Z) (n : nat) : length (split_key k n) = n.
Proof. unfold split_key. rewrite length_fmap, length_seq. reflexivity. Qed.

Lemma reference_draw_indices (k : Z) (a n : nat) :
  (0 < a)%nat ->
  length (draw_indices k a n) = n /\
  Forall (fun i => (i < a)%nat) (draw_indices k a n).
Proof.
  intros Ha. unfold draw_indices. split.
  - rewrite length_fmap, length_seq. reflexivity.
  - apply Forall_fmap, Forall_forall. intros i _. cbn.
    pose proof (Z.mod_pos_bound (k + Z.of_nat i * 7) (Z.of_nat a)
                  ltac:(lia)). lia.
Qed.

Lemma reference_draw_index (k : Z) (a : nat) (q : list Q) :
  (0 < a)%nat -> (draw_index k a q < a)%nat.
Proof.
  intros Ha. unfold draw_index.
  pose proof (Z.mod_pos_bound k (Z.of_nat a) ltac:(lia)). lia.
Qed.

(** The run of a trainer on a store, as outcome and final store. *)
Lemma run_eq (tl vl : nat) (w : @World carriers) :
  call tl vl w = ((call tl vl w).1, (call tl vl w).2).
Proof. destruct (call tl vl w); reflexivity. Qed.

Lemma sample_uniformly_plain_range_witness :
  0 < 1 /\
  length (Samplers.sample_uniformly unit_uniform 5%Z 4 0 1 None) = 4%nat /\
  forall s, s ∈ Samplers.sample_uniformly unit_uniform 5%Z 4 0 1 None ->
            Samplers.in_range 0 1 s.
Proof.
  split; [reflexivity|].
  apply (SamplersExtra.sample_uniformly_plain_range Z unit_uniform
           reference_unit_uniform_range 5%Z 4 0 1).
  reflexivity.
Defined.


Lemma sample_uniformly_offset_nan_witness :
  (1 - 0) - 1 == 0 /\
  Samplers.sample_uniformly unit_uniform 5%Z 3 0 1 (Some 1) =
  [None; None; None].
Proof.
  split; [reflexivity|].
  apply (SamplersExtra.sample_uniformly_offset_nan Z unit_uniform 5%Z 3 0 1 1).
  reflexivity.
Defined.



Lemma call_without_iterations_witness :
  (iterations (self (world (make_trainer (-1) 2 (Some tt) None None))) <= 0)%Z /\
  call 0 0 (world (make_trainer (-1) 2 (Some tt) None None)) =
  (inr tt, world (make_trainer (-1) 2 (Some tt) None None)).
Proof.
  split; [simpl; lia|].
  apply (OTFMFacts.call_without_iterations 0 0
           (world (make_trainer (-1) 2 (Some tt) None None))).
  simpl. lia.
Defined.

Lemma call_advances_key_witness :
  call 0 0 (world trainer) = (inr tt, (call 0 0 (world trainer)).2) /\
  rng (self (call 0 0 (world trainer)).2) =
  Nat.iter 3 next_rng (rng (self (world trainer))).
Proof.
  assert (Hrun : call 0 0 (world trainer) =
                 (inr tt, (call 0 0 (world trainer)).2))
    by (rewrite (run_eq 0 0 (world trainer)) at 1; f_equal).
  split; [exact Hrun|].
  apply (OTFMFacts.call_advances_key 0 0 (world trainer) _ 3);
    [reflexivity | exact Hrun].
Defined.

Lemma call_consumes_batches_witness :
  call 0 1 (world3 trainer) = (inr tt, (call 0 1 (world3 trainer)).2) /\
  consumed 0 1 3 (validations (valid_freq (self (world3 trainer))) 3)
    (world3 trainer) (call 0 1 (world3 trainer)).2 /\
  iterators (call 0 1 (world3 trainer)).2 !! 2%nat =
  iterators (world3 trainer) !! 2%nat.
Proof.
  assert (Hrun : call 0 1 (world3 trainer) =
                 (inr tt, (call 0 1 (world3 trainer)).2))
    by (rewrite (run_eq 0 1 (world3 trainer)) at 1; f_equal).
  split; [exact Hrun|].
  destruct (OTFMFacts.call_consumes_batches 0 1 (world3 trainer) _ 3
              eq_refl Hrun) as [Hc Hother].
  split; [exact Hc|]. apply Hother; lia.
Defined.

Lemma call_validation_schedule_witness :
  call 0 0 (world trainer) = (inr tt, (call 0 0 (world trainer)).2) /\
  count is_validation (trace (call 0 0 (world trainer)).2) =
  validations (valid_freq (self (world trainer))) 3.
Proof.
  assert (Hrun : call 0 0 (world trainer) =
                 (inr tt, (call 0 0 (world trainer)).2))
    by (rewrite (run_eq 0 0 (world trainer)) at 1; f_equal).
  split; [exact Hrun|].
  apply (OTFMFacts.call_validation_schedule 0 0 (world trainer) _ 3
           (trace (call 0 0 (world trainer)).2) eq_refl Hrun).
  reflexivity.
Defined.

Lemma call_checkpoints_witness :
  let w := world (make_trainer 3 2 (Some tt) None (Some tt)) in
  (call 0 0 w).1 = inr tt /\
  count is_checkpoint (trace (call 0 0 w).2) =
  validations (valid_freq (self w)) 3.
Proof.
  intros w.
  assert (Hok : (call 0 0 w).1 = inr tt) by (vm_compute; reflexivity).
  split; [exact Hok|].
  apply (OTFMFacts.call_checkpoints 0 0 w (call 0 0 w).2 3 (call 0 0 w).1
           (trace (call 0 0 w).2) eq_refl (run_eq 0 0 w) eq_refl);
    [exact Hok | eexists; reflexivity].
Defined.

Lemma call_without_rescaling_witness :
  let w := world trainer in
  learn_rescaling (self w) = false /\
  state_eta (self (call 0 0 w).2) = state_eta (self w) /\
  state_xi (self (call 0 0 w).2) = state_xi (self w) /\
  count is_rescaling (trace (call 0 0 w).2) = 0%nat.
Proof.
  intros w. split; [reflexivity|].
  apply (OTFMFacts.call_without_rescaling 0 0 w (call 0 0 w).2
           (call 0 0 w).1 (trace (call 0 0 w).2) (run_eq 0 0 w) eq_refl).
  reflexivity.
Defined.


Lemma call_on_exhausted_loader_witness :
  available 0 (exhausted_world trainer) = 0%nat /\
  exists w',
    call 0 0 (exhausted_world trainer) = (inl StopIteration, w') /\
    trace w' = trace (exhausted_world trainer) /\
    iterators w' = iterators (exhausted_world trainer) /\
    state_neural_vector_field (self w') =
      state_neural_vector_field (self (exhausted_world trainer)) /\
    rng (self w') = next_rng (rng (self (exhausted_world trainer))).
Proof.
  split; [reflexivity|].
  apply (OTFMFacts.call_on_exhausted_loader 0 0 (exhausted_world trainer));
    [simpl; lia | reflexivity | reflexivity].
Defined.

Lemma call_with_zero_valid_freq_witness :
  let w := world (make_trainer 3 0 (Some tt) None None) in
  valid_freq (self w) = 0%Z /\
  exists w' evs,
    call 0 0 w = (inl ZeroDivisionError, w') /\
    emitted w w' evs /\ one_training_step evs /\
    count is_validation evs = 0%nat.
Proof.
  intros w. split; [reflexivity|].
  apply (OTFMFacts.call_with_zero_valid_freq 0 0 w);
    [simpl; lia | reflexivity | exact (fun k => reference_split_length k 3)
    | vm_compute; lia | intros H; discriminate H].
Defined.

Lemma call_keeps_configuration_witness :
  let w := world trainer_rescaling_only in
  same_config (self w) (self (call 0 0 w).2) /\
  reach (rng (self w)) (rng (self (call 0 0 w).2)).
Proof.
  intros w.
  destruct (OTFMFacts.call_keeps_configuration 0 0 w (call 0 0 w).2
              (call 0 0 w).1 (run_eq 0 0 w)) as (H1 & H2 & _).
  split; assumption.
Defined.



Lemma DataLoader_next_batch_witness :
  exists k k' src tgt cond,
    split_key (Conftest.key loader) 2 = [k; k'] /\
    Conftest.DataLoader_next split_key draw_indices loader =
      (inr (src, tgt, cond), Conftest.set_key Z (list Q) k' loader) /\
    length src = 2%nat /\ length tgt = 2%nat.
Proof.
  destruct (ConftestFacts.DataLoader_next_batch Z (list Q) split_key
              draw_indices reference_split_length reference_draw_indices
              loader)
    as (k & k' & src & tgt & cond & H1 & H2 & H3 & H4 & _);
    [discriminate | discriminate |].
  exists k, k', src, tgt, cond. repeat (split; [assumption|]). exact H4.
Defined.

Lemma DataLoader_never_exhausted_witness :
  exists bs o',
    Conftest.DataLoader_draw split_key draw_indices 5 loader = (inr bs, o') /\
    length bs = 5%nat.
Proof.
  destruct (ConftestFacts.DataLoader_never_exhausted Z (list Q) split_key
              draw_indices reference_split_length reference_draw_indices
              5 loader)
    as (bs & o' & H1 & H2 & _); [discriminate | discriminate |].
  exists bs, o'. split; assumption.
Defined.

Lemma DataLoader_next_paired_witness :
  exists inds : list nat,
    (Conftest.DataLoader_next split_key draw_indices loader).1 =
    inr (Conftest.take_rows (Conftest.source_data loader) inds,
         Conftest.take_rows (Conftest.target_data loader) inds,
         (fun c => Conftest.take_rows c inds) <$> Conftest.conditions loader).
Proof.
  destruct (Conftest.DataLoader_next split_key draw_indices loader)
    as [[e|[[src tgt] cond]] o'] eqn:Hrun;
    [vm_compute in Hrun; discriminate Hrun|].
  destruct (ConftestFacts.DataLoader_next_paired Z (list Q) split_key
              draw_indices loader o' src tgt cond eq_refl Hrun)
    as (inds & -> & -> & ->).
  exists inds. reflexivity.
Defined.

Lemma DataLoader_next_empty_witness :
  exists msg,
    Conftest.DataLoader_next split_key draw_indices empty_loader =
    (inl (Conftest.ValueError msg),
     Conftest.set_key Z (list Q) 2%Z empty_loader).
Proof.
  apply (ConftestFacts.DataLoader_next_empty Z (list Q) split_key
           draw_indices empty_loader 1%Z 2%Z);
    [reflexivity | discriminate | left; reflexivity].
Defined.

Lemma ConditionalDataLoader_next_frame_witness :
  exists name ref o' h',
    Conftest.dict_get (Conftest.dataloaders conditional_loader) name =
      Some ref /\
    Conftest.ConditionalDataLoader_next split_key draw_indices draw_index
      conditional_loader loaders =
      ((Conftest.DataLoader_next split_key draw_indices (loaders ref)).1,
       o', h') /\
    forall r, r <> ref -> h' r = loaders r.
Proof.
  destruct (ConftestFacts.ConditionalDataLoader_next_frame Z (list Q)
              split_key draw_indices draw_index conditional_loader loaders
              1%Z 2%Z)
    as (name & ref & o' & h' & _ & H1 & H2 & _ & H3 & _);
    [reflexivity | discriminate | reflexivity | vm_compute; lia |].
  exists name, ref, o', h'. repeat (split; [assumption|]). exact H3.
Defined.

Lemma GENOTDataLoader_next_needs_lin_witness :
  exists msg,
    Conftest.GENOTDataLoader_next split_key draw_indices genot_quad_loader =
    (inl (Conftest.TypeError msg),
     Conftest.set_genot_key Z (list Q) 2%Z genot_quad_loader).
Proof.
  apply (proj2 (ConftestFacts.GENOTDataLoader_next_needs_lin Z (list Q)
                  split_key draw_indices genot_quad_loader) 1%Z 2%Z);
    reflexivity.
Defined.

End ExtraRuns.
